(** * shortlink: a shallow embedding of [main.go] and its specification

    The service is one Go file: validators ([isValidURL], [isValidCode]),
    a random code generator ([genRandomCode]) and four Gin handlers over a
    single GORM/SQLite table ([handleCreate], [handleRedirect],
    [handleInfo], [handleDelete]).

    Go strings are byte strings, so they are [string]s of [ascii] bytes
    here.  Go's [int], [int64] and [time.Time] instants are [Z]; the only
    64-bit product of the file ([time.Duration(req.TTL) * time.Second])
    has its wrap-around written out.  Handlers run in a small state monad
    over a [World] that holds the table, the environment and the two
    sources of non-determinism (the clock and [crypto/rand]). *)

From Stdlib Require Import ZArith List String Ascii Bool Lia.
Import ListNotations.

Local Open Scope Z_scope.

(** ** Results and errors *)

Inductive error : Type :=
| ErrRecordNotFound      (* gorm.ErrRecordNotFound *)
| ErrUniqueConstraint    (* SQLite: UNIQUE constraint failed: short_links.code *)
| ErrRandRead            (* crypto/rand: reading rand.Reader failed *)
| ErrURLParse            (* *url.Error from net/url *)
| ErrBind                (* ShouldBindJSON could not decode the body *)
| PanicIndexOutOfRange.  (* runtime panic: index out of range *)

Inductive result (A : Type) : Type :=
| Ok (a : A)
| Err (e : error).
Arguments Ok {A} a.
Arguments Err {A} e.

(** ** The parts of Go's [strings] package the file calls *)

Module strings.

(** [strings.HasPrefix] *)
Fixpoint HasPrefix (s prefix : string) : bool :=
  match prefix, s with
  | EmptyString, _ => true
  | String _ _, EmptyString => false
  | String p ps, String c cs => Ascii.eqb c p && HasPrefix cs ps
  end.

(** [strings.Contains]: [substr] occurs at some offset of [s]. *)
Fixpoint Contains (s substr : string) : bool :=
  HasPrefix s substr ||
  match s with
  | EmptyString => false
  | String _ cs => Contains cs substr
  end.

Fixpoint rev_onto (s acc : string) : string :=
  match s with
  | EmptyString => acc
  | String c cs => rev_onto cs (String c acc)
  end.

Definition rev (s : string) : string := rev_onto s EmptyString.

Fixpoint mem (c : ascii) (cutset : string) : bool :=
  match cutset with
  | EmptyString => false
  | String d ds => Ascii.eqb c d || mem c ds
  end.

Fixpoint trim_left_bytes (cutset s : string) : string :=
  match s with
  | EmptyString => EmptyString
  | String c cs => if mem c cutset then trim_left_bytes cutset cs else s
  end.

(** [strings.TrimRight] for a cutset of ASCII bytes (the file's only
    cutset is ["/"]): every trailing byte that occurs in [cutset] is
    removed. *)
Definition TrimRight (s cutset : string) : string :=
  rev (trim_left_bytes cutset (rev s)).

Definition bytes (l : list N) : string :=
  fold_right (fun n s => String (ascii_of_N n) s) EmptyString l.

(** The UTF-8 encodings of the runes for which [unicode.IsSpace] holds:
    tab, LF, VT, FF, CR, space, U+0085, U+00A0, U+1680, U+2000..U+200A,
    U+2028, U+2029, U+202F, U+205F, U+3000. *)
Definition space_runes : list string :=
  map bytes
    [ [9]; [10]; [11]; [12]; [13]; [32];
      [194; 133]; [194; 160]; [225; 154; 128];
      [226; 128; 128]; [226; 128; 129]; [226; 128; 130]; [226; 128; 131];
      [226; 128; 132]; [226; 128; 133]; [226; 128; 134]; [226; 128; 135];
      [226; 128; 136]; [226; 128; 137]; [226; 128; 138];
      [226; 128; 168]; [226; 128; 169]; [226; 128; 175];
      [226; 129; 159]; [227; 128; 128] ]%N.

Fixpoint drop (n : nat) (s : string) : string :=
  match n, s with
  | O, _ => s
  | S _, EmptyString => EmptyString
  | S n', String _ cs => drop n' cs
  end.

(** Removes one leading rune of [runes] from [s], if there is one. *)
Fixpoint strip_rune (runes : list string) (s : string) : option string :=
  match runes with
  | [] => None
  | r :: rs =>
      if HasPrefix s r then Some (drop (String.length r) s)
      else strip_rune rs s
  end.

Fixpoint trim_left_runes (fuel : nat) (runes : list string) (s : string)
  : string :=
  match fuel with
  | O => s
  | S fuel' =>
      match strip_rune runes s with
      | Some s' => trim_left_runes fuel' runes s'
      | None => s
      end
  end.

(** [strings.TrimSpace]: all leading and trailing white space, as
    [unicode.IsSpace] defines it, is removed.  Each stripped rune is at
    least one byte long, so [String.length s] rounds are enough. *)
Definition TrimSpace (s : string) : string :=
  let l := trim_left_runes (String.length s) space_runes s in
  rev (trim_left_runes (String.length l) (map rev space_runes) (rev l)).

(** [strings.TrimPrefix] *)
Definition TrimPrefix (s prefix : string) : string :=
  if HasPrefix s prefix then drop (String.length prefix) s else s.

End strings.

(** ** A matcher for the fragment of Go's [regexp] syntax the file uses

    Go matches over runes.  The one class of the file holds ASCII runes
    only, and every byte of a multi-byte or invalid encoding is above 127,
    so matching that class byte by byte accepts the same strings. *)

Module regexp.

Inductive Regexp : Type :=
| BeginText                                   (* ^ *)
| EndText                                     (* $  (no flags: end of text) *)
| CharClass (ranges : list (ascii * ascii))   (* [lo-hi ...] *)
| Concat (r1 r2 : Regexp)
| Plus (r : Regexp).                          (* r+ *)

Definition in_range (c : ascii) (r : ascii * ascii) : bool :=
  (N_of_ascii (fst r) <=? N_of_ascii c)%N &&
  (N_of_ascii c <=? N_of_ascii (snd r))%N.

Definition in_class (ranges : list (ascii * ascii)) (c : ascii) : bool :=
  existsb (in_range c) ranges.

(** [match_at r bot s k]: [r] matches a prefix of [s], after which the
    continuation [k] accepts.  [bot] tells whether the position is the
    beginning of the text.  The iteration of [Plus] is bounded by the
    length of the text still to be read. *)
Fixpoint match_at (r : Regexp) (bot : bool) (s : string)
         (k : bool -> string -> bool) {struct r} : bool :=
  match r with
  | BeginText => if bot then k bot s else false
  | EndText =>
      match s with
      | EmptyString => k bot s
      | String _ _ => false
      end
  | CharClass ranges =>
      match s with
      | EmptyString => false
      | String c cs => if in_class ranges c then k false cs else false
      end
  | Concat r1 r2 =>
      match_at r1 bot s (fun bot' s' => match_at r2 bot' s' k)
  | Plus r1 =>
      (fix iterate (n : nat) (b : bool) (t : string) {struct n} : bool :=
         match_at r1 b t
           (fun b' t' =>
              k b' t' ||
              match n with
              | O => false
              | S n' => iterate n' b' t'
              end))
        (String.length s) bot s
  end.

Fixpoint search (r : Regexp) (bot : bool) (s : string) : bool :=
  match_at r bot s (fun _ _ => true) ||
  match s with
  | EmptyString => false
  | String _ cs => search r false cs
  end.

(** [Regexp.MatchString]: is there a match of [r] anywhere in [s]? *)
Definition MatchString (r : Regexp) (s : string) : bool :=
  search r true s.

End regexp.

(** ** [net/url]

    The parser is Go's standard library, not code of this repository: the
    validator is stated over any implementation of the one function it
    calls.  Of the parsed URL only [Scheme] is read. *)

Record URL : Type := mkURL {
  Scheme : string;
  Host : string;
  Path : string
}.

Class net_url : Type := {
  ParseRequestURI : string -> result URL
}.

(** ** Validators *)

(** [isValidURL] *)
Definition isValidURL `{net_url} (u : string) : bool :=
  let u := if negb (strings.Contains u "://") then ("http://" ++ u)%string
           else u in
  match ParseRequestURI u with
  | Err _ => false
  | Ok parsed =>
      if negb (String.eqb (Scheme parsed) "http")
         && negb (String.eqb (Scheme parsed) "https")
      then false
      else true
  end.

(** [codeRegexp = regexp.MustCompile(`^[A-Za-z0-9_-]+$`)] *)
Definition codeRegexp : regexp.Regexp :=
  regexp.Concat regexp.BeginText
    (regexp.Concat
       (regexp.Plus
          (regexp.CharClass
             [ ("A", "Z"); ("a", "z"); ("0", "9"); ("_", "_"); ("-", "-") ]%char))
       regexp.EndText).

(** [isValidCode] *)
Definition isValidCode (s : string) : bool :=
  regexp.MatchString codeRegexp s.

(** The specification's wording of the code alphabet: a letter, a digit,
    an underscore or a hyphen. *)
Definition code_char (c : ascii) : Prop :=
  let n := N_of_ascii c in
  (65 <= n <= 90 \/ 97 <= n <= 122 \/ 48 <= n <= 57 \/ n = 95 \/ n = 45)%N.

Fixpoint all_chars (P : ascii -> Prop) (s : string) : Prop :=
  match s with
  | EmptyString => True
  | String c cs => P c /\ all_chars P cs
  end.

(** ** Configuration constants *)

Definition DefaultCodeLen : Z := 6.
Definition DomainEnv : string := "SHORT_DOMAIN".
Definition DefaultDomain : string := "http://localhost:8080".
Definition MaxCustomLength : Z := 64.

(** [net/http] status codes *)
Definition StatusOK : Z := 200.
Definition StatusFound : Z := 302.
Definition StatusBadRequest : Z := 400.
Definition StatusNotFound : Z := 404.
Definition StatusConflict : Z := 409.
Definition StatusGone : Z := 410.
Definition StatusInternalServerError : Z := 500.

(** ** The data model *)

(** A [time.Time] instant: nanoseconds since the Unix epoch. *)
Definition time_Time : Type := Z.

(** [t.After(u)] *)
Definition time_After (t u : time_Time) : bool := u <? t.

(** Two's complement reduction of a product of [int64]s. *)
Definition wrap64 (x : Z) : Z := (x + 2 ^ 63) mod 2 ^ 64 - 2 ^ 63.

(** [time.Second], in nanoseconds *)
Definition time_Second : Z := 1000000000.

(** [t.Add(d)] *)
Definition time_Add (t : time_Time) (d : Z) : time_Time := t + d.

(** [sql.NullTime] *)
Record NullTime : Type := mkNullTime {
  Time : time_Time;
  Valid : bool
}.

Definition NullTime_zero : NullTime := {| Time := 0; Valid := false |}.

Record ShortLink : Type := mkShortLink {
  ID : Z;
  Code : string;
  TargetURL : string;
  Clicks : Z;
  CreatedAt : time_Time;
  ExpiredAt : NullTime
}.

Definition ShortLink_zero : ShortLink :=
  {| ID := 0; Code := ""; TargetURL := ""; Clicks := 0; CreatedAt := 0;
     ExpiredAt := NullTime_zero |}.

Record CreateReq : Type := mkCreateReq {
  URL_ : string;      (* URL    string `json:"url"` *)
  Custom : string;    (* Custom string `json:"custom,omitempty"` *)
  TTL : Z             (* TTL    int    `json:"ttl_seconds,omitempty"` *)
}.

Record CreateResp : Type := mkCreateResp {
  resp_Code : string;       (* Code     string `json:"code"` *)
  resp_ShortURL : string;   (* ShortURL string `json:"short_url"` *)
  resp_URL : string         (* URL      string `json:"url"` *)
}.

(** What a handler writes to the [gin.Context]. *)
Inductive Body : Type :=
| H_error (msg : string)                       (* gin.H{"error": msg} *)
| H_ok                                         (* gin.H{"ok": true} *)
| H_info (code url : string) (clicks : Z)
         (created_at : time_Time) (expired_at : NullTime)
| Body_CreateResp (r : CreateResp).

Inductive Response : Type :=
| JSON (status : Z) (body : Body)              (* c.JSON(status, body) *)
| Redirect (status : Z) (location : string).   (* c.Redirect(status, location) *)

(** ** The table behind [db]

    [short_links] has an auto-increment primary key [id] and a unique index
    on [code].  Rows are kept in insertion order, which is the order of
    their keys. *)

Record DB : Type := mkDB {
  rows : list ShortLink;
  next_id : Z
}.

Definition DB_empty : DB := {| rows := []; next_id := 1 |}.

Definition has_code (code : string) (l : ShortLink) : bool :=
  String.eqb (Code l) code.

(** [db.Where("code = ?", code).First(&dst)]: the row with the least key. *)
Definition db_First (code : string) (d : DB) : result ShortLink :=
  match find (has_code code) (rows d) with
  | Some l => Ok l
  | None => Err ErrRecordNotFound
  end.

Definition with_ID (l : ShortLink) (id : Z) : ShortLink :=
  {| ID := id; Code := Code l; TargetURL := TargetURL l; Clicks := Clicks l;
     CreatedAt := CreatedAt l; ExpiredAt := ExpiredAt l |}.

(** [db.Create(&link).Error] for a link whose [ID] is zero: the unique
    index refuses a second row with the same code. *)
Definition db_Create (link : ShortLink) (d : DB) : option error * DB :=
  if existsb (has_code (Code link)) (rows d)
  then (Some ErrUniqueConstraint, d)
  else (None, {| rows := rows d ++ [with_ID link (next_id d)];
                 next_id := next_id d + 1 |}).

Definition add_clicks (n : Z) (l : ShortLink) : ShortLink :=
  {| ID := ID l; Code := Code l; TargetURL := TargetURL l;
     Clicks := Clicks l + n;
     CreatedAt := CreatedAt l; ExpiredAt := ExpiredAt l |}.

(** [db.Model(&link).UpdateColumn("clicks", gorm.Expr("clicks + ?", n))]:
    [UPDATE short_links SET clicks = clicks + n WHERE id = link.ID]; with a
    zero primary key GORM refuses the update. *)
Definition db_UpdateColumn_clicks (link : ShortLink) (n : Z) (d : DB) : DB :=
  if ID link =? 0 then d
  else {| rows := map (fun l => if ID l =? ID link then add_clicks n l else l)
                      (rows d);
          next_id := next_id d |}.

(** [db.Where("code = ?", code).Delete(&ShortLink{})], with [RowsAffected]. *)
Definition db_Delete (code : string) (d : DB) : Z * DB :=
  (Z.of_nat (List.length (filter (has_code code) (rows d))),
   {| rows := filter (fun l => negb (has_code code l)) (rows d);
      next_id := next_id d |}).

(** ** The world a handler runs in *)

Record World : Type := mkWorld {
  db : DB;
  env : string -> string;      (* os.Getenv *)
  clock : nat -> time_Time;    (* the successive readings of time.Now() *)
  clock_pos : nat;
  rand_src : nat -> option Z;  (* what the successive calls of rand.Int
                                  draw; None: reading rand.Reader fails *)
  rand_pos : nat
}.

Definition M (A : Type) : Type := World -> A * World.

Definition ret {A : Type} (a : A) : M A := fun w => (a, w).

Definition bind {A B : Type} (c : M A) (k : A -> M B) : M B :=
  fun w => let (a, w') := c w in k a w'.

Notation "x <- c ;; k" := (bind c (fun x => k))
  (at level 61, c at next level, right associativity).

Definition set_db (d : DB) (w : World) : World :=
  {| db := d; env := env w; clock := clock w; clock_pos := clock_pos w;
     rand_src := rand_src w; rand_pos := rand_pos w |}.

(** [time.Now()] *)
Definition time_Now : M time_Time :=
  fun w => (clock w (clock_pos w),
            {| db := db w; env := env w; clock := clock w;
               clock_pos := S (clock_pos w);
               rand_src := rand_src w; rand_pos := rand_pos w |}).

(** [rand.Int(rand.Reader, big.NewInt(max))]: a value of [[0, max)], or the
    error of the reader. *)
Definition rand_Int (max : Z) : M (result Z) :=
  fun w => (match rand_src w (rand_pos w) with
            | Some raw => Ok (raw mod max)
            | None => Err ErrRandRead
            end,
            {| db := db w; env := env w; clock := clock w;
               clock_pos := clock_pos w;
               rand_src := rand_src w; rand_pos := S (rand_pos w) |}).

(** [os.Getenv] *)
Definition os_Getenv (key : string) : M string :=
  fun w => (env w key, w).

Definition First (code : string) : M (result ShortLink) :=
  fun w => (db_First code (db w), w).

Definition Create (link : ShortLink) : M (option error) :=
  fun w => let (e, d) := db_Create link (db w) in (e, set_db d w).

Definition UpdateColumn_clicks (link : ShortLink) (n : Z) : M unit :=
  fun w => (tt, set_db (db_UpdateColumn_clicks link n (db w)) w).

Definition Delete (code : string) : M Z :=
  fun w => let (n, d) := db_Delete code (db w) in (n, set_db d w).

(** ** The code generator *)

Definition alphabet : string :=
  "0123456789abcdefghijklmnopqrstuvwxyzABCDEFGHIJKLMNOPQRSTUVWXYZ".

(** [b[i] = c] *)
Fixpoint store_byte (i : nat) (c : ascii) (b : list ascii)
  : option (list ascii) :=
  match b, i with
  | [], _ => None
  | _ :: b', O => Some (c :: b')
  | x :: b', S i' =>
      match store_byte i' c b' with
      | Some r => Some (x :: r)
      | None => None
      end
  end.

(** The body of [for i := 0; i < length; i++], with [n] rounds to go. *)
Fixpoint genRandomCode_loop (n i : nat) (b : list ascii)
  : M (result (list ascii)) :=
  match n with
  | O => ret (Ok b)
  | S n' =>
      r <- rand_Int (Z.of_nat (String.length alphabet)) ;;
      match r with
      | Err err => ret (Err err)
      | Ok v =>
          match String.get (Z.to_nat v) alphabet with
          | None => ret (Err PanicIndexOutOfRange)
          | Some c =>
              match store_byte i c b with
              | None => ret (Err PanicIndexOutOfRange)
              | Some b' => genRandomCode_loop n' (S i) b'
              end
          end
      end
  end.

(** [genRandomCode]; [Err e] stands for the pair [("", e)]. *)
Definition genRandomCode (length : Z) : M (result string) :=
  let length := if length <=? 0 then DefaultCodeLen else length in
  let b := repeat zero (Z.to_nat length) in
  r <- genRandomCode_loop (Z.to_nat length) 0 b ;;
  match r with
  | Err err => ret (Err err)
  | Ok b => ret (Ok (string_of_list_ascii b))
  end.

(** ** Handlers *)

(** The rounds of [for i := 0; i < 5; i++] in [handleCreate]: [inl] is a
    response written before [return], [inr] the value of [code] when the
    loop is left. *)
Fixpoint handleCreate_loop (rounds : list Z) (code : string)
  : M (Response + string) :=
  match rounds with
  | [] => ret (inr code)
  | i :: rounds' =>
      r <- genRandomCode DefaultCodeLen ;;
      match r with
      | Err _ =>
          ret (inl (JSON StatusInternalServerError (H_error "生成短码失败")))
      | Ok code =>
          res <- First code ;;
          match res with
          | Err ErrRecordNotFound => ret (inr code)
          | _ =>
              if i =? 4
              then ret (inl (JSON StatusInternalServerError
                               (H_error "生成短码冲突，稍后重试")))
              else handleCreate_loop rounds' code
          end
      end
  end.

(** The choice of the code in [handleCreate]: the custom code or a
    generated one. *)
Definition handleCreate_code (req : CreateReq) : M (Response + string) :=
  if negb (String.eqb (Custom req) "") then
    if Z.of_nat (String.length (Custom req)) >? MaxCustomLength then
      ret (inl (JSON StatusBadRequest
                  (H_error "自定义短码长度不能超过 64")))
    else if negb (isValidCode (Custom req)) then
      ret (inl (JSON StatusBadRequest
                  (H_error "自定义短码只允许字母数字和 - _")))
    else
      res <- First (Custom req) ;;
      match res with
      | Ok _ => ret (inl (JSON StatusConflict (H_error "自定义短码已存在")))
      | Err _ => ret (inr (Custom req))
      end
  else handleCreate_loop [0; 1; 2; 3; 4] "".

(** [handleCreate]; [body] is what [c.ShouldBindJSON(&req)] made of the
    request body. *)
Definition handleCreate `{net_url} (body : result CreateReq) : M Response :=
  match body with
  | Err _ => ret (JSON StatusBadRequest (H_error "请求体解析失败"))
  | Ok req =>
      let url := strings.TrimSpace (URL_ req) in
      if String.eqb url "" then
        ret (JSON StatusBadRequest (H_error "url 不能为空"))
      else if negb (isValidURL url) then
        ret (JSON StatusBadRequest (H_error "url 格式不正确"))
      else
        c <- handleCreate_code req ;;
        match c with
        | inl response => ret response
        | inr code =>
            created <- time_Now ;;
            expired <- (if TTL req >? 0 then
                          now <- time_Now ;;
                          ret {| Valid := true;
                                 Time := time_Add now
                                           (wrap64 (TTL req * time_Second)) |}
                        else ret NullTime_zero) ;;
            let link := {| ID := 0; Code := code; TargetURL := url;
                           Clicks := 0; CreatedAt := created;
                           ExpiredAt := expired |} in
            err <- Create link ;;
            match err with
            | Some _ =>
                ret (JSON StatusInternalServerError (H_error "保存失败"))
            | None =>
                shortDomain <- os_Getenv DomainEnv ;;
                let shortDomain := if String.eqb shortDomain ""
                                   then DefaultDomain else shortDomain in
                ret (JSON StatusOK
                       (Body_CreateResp
                          {| resp_Code := code;
                             resp_ShortURL :=
                               (strings.TrimRight shortDomain "/" ++ "/"
                                ++ code)%string;
                             resp_URL := url |}))
            end
        end
  end.

(** [handleRedirect]; [code] is [c.Param("code")]. *)
Definition handleRedirect (code : string) : M Response :=
  if String.eqb code "" then
    ret (JSON StatusBadRequest (H_error "无效的短码"))
  else
    res <- First code ;;
    match res with
    | Err ErrRecordNotFound =>
        ret (JSON StatusNotFound (H_error "短链不存在"))
    | _ =>
        let link := match res with Ok l => l | Err _ => ShortLink_zero end in
        gone <- (if Valid (ExpiredAt link) then
                   now <- time_Now ;;
                   ret (time_After now (Time (ExpiredAt link)))
                 else ret false) ;;
        if gone then ret (JSON StatusGone (H_error "短链已过期"))
        else
          _ <- UpdateColumn_clicks link 1 ;;
          ret (Redirect StatusFound (TargetURL link))
    end.

(** [handleInfo] *)
Definition handleInfo (code : string) : M Response :=
  res <- First code ;;
  match res with
  | Err ErrRecordNotFound =>
      ret (JSON StatusNotFound (H_error "短链不存在"))
  | _ =>
      let link := match res with Ok l => l | Err _ => ShortLink_zero end in
      ret (JSON StatusOK
             (H_info (Code link) (TargetURL link) (Clicks link)
                     (CreatedAt link) (ExpiredAt link)))
  end.

(** [handleDelete] *)
Definition handleDelete (code : string) : M Response :=
  n <- Delete code ;;
  if n =? 0 then ret (JSON StatusNotFound (H_error "短链不存在"))
  else ret (JSON StatusOK H_ok).

(** ** Requests *)

Inductive Request : Type :=
| POST_shorten (body : result CreateReq)   (* POST /api/shorten *)
| GET_code (code : string)                 (* GET /:code *)
| GET_info (code : string)                 (* GET /api/info/:code *)
| DELETE_code (code : string).             (* DELETE /api/:code *)

Definition serve `{net_url} (r : Request) : M Response :=
  match r with
  | POST_shorten body => handleCreate body
  | GET_code code => handleRedirect code
  | GET_info code => handleInfo code
  | DELETE_code code => handleDelete code
  end.

(** ** Predicates the statements use *)

(** A stored link is expired at [now] when its expiry is set and in the
    past. *)
Definition expired_at (now : time_Time) (l : ShortLink) : Prop :=
  Valid (ExpiredAt l) = true /\ Time (ExpiredAt l) < now.

(** Active: the expiry is unset or not in the past. *)
Definition active_at (now : time_Time) (l : ShortLink) : Prop :=
  ~ expired_at now l.

Definition stored (d : DB) (l : ShortLink) : Prop := In l (rows d).

Definition stored_code (d : DB) (code : string) : Prop :=
  exists l, stored d l /\ Code l = code.

(** The constraints of the table: keys are positive, distinct and below
    the sequence counter, and no two rows share a code. *)
Definition db_wf (d : DB) : Prop :=
  NoDup (map ID (rows d)) /\
  NoDup (map Code (rows d)) /\
  Forall (fun l => 0 < ID l < next_id d) (rows d) /\
  0 < next_id d.

(** The reading [time.Now()] gives next. *)
Definition now_of (w : World) : time_Time := clock w (clock_pos w).

(** ** The token check and the routes of [main] *)

Definition StatusUnauthorized : Z := 401.

(** What becomes of a start-up step: it goes on, or [log.Fatal] ends the
    process. *)
Inductive startup (A : Type) : Type :=
| Started (a : A)
| Fatal (msg : string).
Arguments Started {A} a.
Arguments Fatal {A} msg.

(** The handler [tokenAuthMiddleware] returns, for the token it captured;
    [authHeader] is [c.GetHeader("Authorization")] (empty when the header
    is absent).  [Some response]: the response is written and the chain is
    aborted; [None]: [c.Next()]. *)
Definition tokenAuth (token authHeader : string) : option Response :=
  if negb (strings.HasPrefix authHeader "Bearer ") then
    Some (JSON StatusUnauthorized
            (H_error "缺少或无效的 Authorization header"))
  else
    let providedToken := strings.TrimPrefix authHeader "Bearer " in
    if negb (String.eqb providedToken token) then
      Some (JSON StatusUnauthorized (H_error "无效 token"))
    else None.

(** [tokenAuthMiddleware] *)
Definition tokenAuthMiddleware : M (startup (string -> option Response)) :=
  token <- os_Getenv "API_TOKEN" ;;
  if String.eqb token "" then ret (Fatal "请设置环境变量 API_TOKEN")
  else ret (Started (tokenAuth token)).

(** The routes of [main]: the [/api] group runs behind the middleware,
    [GET /:code] does not. *)
Definition route `{net_url} (auth : string -> option Response)
           (authHeader : string) (r : Request) : M Response :=
  match r with
  | GET_code code => handleRedirect code
  | POST_shorten _ | GET_info _ | DELETE_code _ =>
      match auth authHeader with
      | Some response => ret response
      | None => serve r
      end
  end.

(** ** [encodeBase62] *)

(** The rounds of [for num > 0]; [num] is a [uint64], so it has at most 64
    bits and loses at least one of them each round. *)
Fixpoint encodeBase62_loop (rounds : nat) (num : Z) (chars : list ascii)
  : result (list ascii) :=
  match rounds with
  | O => Ok chars
  | S rounds' =>
      if num >? 0 then
        let base := Z.of_nat (String.length alphabet) in
        let rem := num mod base in
        match String.get (Z.to_nat rem) alphabet with
        | None => Err PanicIndexOutOfRange
        | Some c => encodeBase62_loop rounds' (num / base) (c :: chars)
        end
      else Ok chars
  end.

(** [encodeBase62] *)
Definition encodeBase62 (num : Z) : result string :=
  if num =? 0 then Ok "0"%string
  else
    match encodeBase62_loop 64 num [] with
    | Ok chars => Ok (string_of_list_ascii chars)
    | Err e => Err e
    end.

(** ** [seedExample] *)

(** [db.Model(&ShortLink{}).Count(&count)] *)
Definition Count : M Z :=
  fun w => (Z.of_nat (List.length (rows (db w))), w).

(** [seedExample] *)
Definition seedExample : M unit :=
  count <- Count ;;
  if count =? 0 then
    now <- time_Now ;;
    _ <- Create {| ID := 0; Code := "hello";
                   TargetURL := "https://example.com"; Clicks := 0;
                   CreatedAt := now; ExpiredAt := NullTime_zero |} ;;
    ret tt
  else ret tt.

(** * Properties *)

(** ** The validators and string functions on sample inputs *)

Example isValidCode_go_123_A : isValidCode "go_123-A" = true.
Proof. reflexivity. Qed.

Example isValidCode_go_space_123 : isValidCode "go 123" = false.
Proof. reflexivity. Qed.

Example isValidCode_empty : isValidCode "" = false.
Proof. reflexivity. Qed.

Example isValidCode_trailing_newline :
  isValidCode (String "a" (String (ascii_of_N 10) EmptyString)) = false.
Proof. reflexivity. Qed.

Example TrimSpace_example :
  strings.TrimSpace (strings.bytes [32; 9; 104; 105; 32; 194; 160; 10]%N)
  = "hi"%string.
Proof. reflexivity. Qed.

Example TrimRight_example :
  strings.TrimRight "https://s.example.com//" "/" = "https://s.example.com"%string.
Proof. reflexivity. Qed.

(** ** Strings *)

Lemma string_eqb_false (a b : string) : a <> b -> String.eqb a b = false.
Proof. intro H. apply String.eqb_neq. exact H. Qed.

Lemma all_chars_impl (P Q : ascii -> Prop) (s : string) :
  (forall c, P c -> Q c) -> all_chars P s -> all_chars Q s.
Proof.
  intro PQ. induction s as [|c s IH]; simpl; [trivial|].
  intros [Hc Hs]. split; auto.
Qed.

Lemma all_chars_mem (P : ascii -> Prop) (s : string) (c : ascii) :
  all_chars P s -> strings.mem c s = true -> P c.
Proof.
  induction s as [|d s IH]; simpl; [discriminate|].
  intros [Hd Hs] H. apply orb_true_iff in H. destruct H as [H|H].
  - apply Ascii.eqb_eq in H. subst. exact Hd.
  - auto.
Qed.

(** ** [isValidCode] *)

Definition code_ranges : list (ascii * ascii) :=
  [ ("A", "Z"); ("a", "z"); ("0", "9"); ("_", "_"); ("-", "-") ]%char.

Lemma in_class_code_char (c : ascii) :
  regexp.in_class code_ranges c = true <-> code_char c.
Proof.
  unfold regexp.in_class, code_ranges, regexp.in_range, code_char.
  cbn [existsb fst snd]. cbv zeta.
  change (N_of_ascii "A") with 65%N. change (N_of_ascii "Z") with 90%N.
  change (N_of_ascii "a") with 97%N. change (N_of_ascii "z") with 122%N.
  change (N_of_ascii "0") with 48%N. change (N_of_ascii "9") with 57%N.
  change (N_of_ascii "_") with 95%N. change (N_of_ascii "-") with 45%N.
  repeat rewrite orb_true_iff. repeat rewrite andb_true_iff.
  repeat rewrite N.leb_le. lia.
Qed.

(** The iteration [[A-Za-z0-9_-]+] followed by [$], as [match_at] runs it. *)
Definition plus_then_end : nat -> bool -> string -> bool :=
  fix iterate (n : nat) (b : bool) (t : string) {struct n} : bool :=
    regexp.match_at (regexp.CharClass code_ranges) b t
      (fun b' t' =>
         regexp.match_at regexp.EndText b' t' (fun _ _ => true) ||
         match n with
         | O => false
         | S n' => iterate n' b' t'
         end).

Lemma match_at_codeRegexp (bot : bool) (s : string) :
  regexp.match_at codeRegexp bot s (fun _ _ => true)
  = if bot then plus_then_end (String.length s) bot s else false.
Proof. destruct bot; reflexivity. Qed.

Lemma plus_then_end_nil (n : nat) (b : bool) :
  plus_then_end n b EmptyString = false.
Proof. destruct n; reflexivity. Qed.

Lemma plus_then_end_cons (n : nat) (b : bool) (c : ascii) (t : string) :
  plus_then_end n b (String c t)
  = if regexp.in_class code_ranges c
    then (match t with EmptyString => true | String _ _ => false end
          || match n with O => false | S n' => plus_then_end n' false t end)
    else false.
Proof. destruct n; reflexivity. Qed.

Lemma plus_then_end_spec (n : nat) :
  forall (b : bool) (t : string),
    (String.length t <= S n)%nat ->
    plus_then_end n b t = true <-> (t <> EmptyString /\ all_chars code_char t).
Proof.
  induction n as [|n IH]; intros b t Hlen.
  - destruct t as [|c t].
    + rewrite plus_then_end_nil.
      split; [discriminate | intros [H _]; congruence].
    + destruct t as [|c' t]; [|simpl in Hlen; lia].
      rewrite plus_then_end_cons.
      pose proof (in_class_code_char c) as Hc.
      destruct (regexp.in_class code_ranges c); cbn [orb all_chars].
      * split; [|reflexivity]. intros _. split; [discriminate|].
        split; [apply Hc; reflexivity | exact I].
      * split; [discriminate|]. intros [_ [H _]]. apply Hc in H. discriminate.
  - destruct t as [|c t].
    + rewrite plus_then_end_nil.
      split; [discriminate | intros [H _]; congruence].
    + rewrite plus_then_end_cons.
      pose proof (in_class_code_char c) as Hc.
      simpl in Hlen. assert (Ht : (String.length t <= S n)%nat) by lia.
      specialize (IH false t Ht).
      destruct (regexp.in_class code_ranges c); cbn [all_chars].
      * destruct t as [|c' t'].
        -- cbn [orb all_chars]. split; [|reflexivity].
           intros _. split; [discriminate|].
           split; [apply Hc; reflexivity | exact I].
        -- rewrite orb_false_l. rewrite IH. split.
           ++ intros [_ H]. split; [discriminate|].
              split; [apply Hc; reflexivity | exact H].
           ++ intros [_ [_ H]]. split; [discriminate | exact H].
      * split; [discriminate|]. intros [_ [H _]]. apply Hc in H. discriminate.
Qed.

Lemma search_codeRegexp_later (s : string) :
  regexp.search codeRegexp false s = false.
Proof.
  induction s as [|c s IH]; [reflexivity|].
  cbn [regexp.search]. rewrite match_at_codeRegexp. exact IH.
Qed.

Lemma isValidCode_spec (s : string) :
  isValidCode s = true <-> (s <> EmptyString /\ all_chars code_char s).
Proof.
  unfold isValidCode, regexp.MatchString.
  destruct s as [|c s].
  - split; [discriminate | intros [H _]; congruence].
  - cbn [regexp.search]. rewrite match_at_codeRegexp.
    rewrite search_codeRegexp_later, orb_false_r.
    apply plus_then_end_spec. lia.
Qed.

(** C7: [isValidCode] accepts exactly the non-empty strings all of whose
    characters are letters, digits, underscores or hyphens; a string with
    any other character is rejected; ["go_123-A"] is accepted and
    ["go 123"] is rejected. *)
Theorem C7_isValidCode_charset :
  (forall s : string,
      isValidCode s = true <-> (s <> EmptyString /\ all_chars code_char s)) /\
  (forall (s : string) (c : ascii),
      strings.mem c s = true -> ~ code_char c -> isValidCode s = false) /\
  isValidCode "go_123-A" = true /\
  isValidCode "go 123" = false /\
  isValidCode "a/b" = false /\
  isValidCode "a@b" = false.
Proof.
  split; [exact isValidCode_spec|].
  split; [|repeat split; reflexivity].
  intros s c Hmem Hc.
  destruct (isValidCode s) eqn:E; [|reflexivity].
  apply isValidCode_spec in E. destruct E as [_ Hall].
  exfalso. apply Hc. exact (all_chars_mem _ _ _ Hall Hmem).
Qed.

(** ** [strings.HasPrefix] and [strings.Contains] *)

Lemma HasPrefix_append (p t : string) :
  strings.HasPrefix (p ++ t) p = true.
Proof.
  induction p as [|c p IH]; [destruct t; reflexivity|].
  cbn [append strings.HasPrefix]. rewrite Ascii.eqb_refl. exact IH.
Qed.

Lemma drop_append (p t : string) :
  strings.drop (String.length p) (p ++ t) = t.
Proof. induction p as [|c p IH]; [destruct t; reflexivity | exact IH]. Qed.

Lemma HasPrefix_split (p : string) :
  forall s : string,
    strings.HasPrefix s p = true ->
    s = (p ++ strings.drop (String.length p) s)%string.
Proof.
  induction p as [|c p IH]; intros s Hs.
  - destruct s; reflexivity.
  - destruct s as [|d s]; [discriminate|].
    cbn [strings.HasPrefix] in Hs. apply andb_true_iff in Hs.
    destruct Hs as [Hc Hs]. apply Ascii.eqb_eq in Hc. subst d.
    cbn [append String.length strings.drop]. f_equal. exact (IH s Hs).
Qed.

Lemma Contains_unfold (s substr : string) :
  strings.Contains s substr
  = strings.HasPrefix s substr ||
    match s with
    | EmptyString => false
    | String _ cs => strings.Contains cs substr
    end.
Proof. destruct s; reflexivity. Qed.

(** [strings.Contains s substr] holds exactly when [s] is some string,
    then [substr], then some string. *)
Lemma Contains_spec (substr : string) :
  forall s : string,
    strings.Contains s substr = true
    <-> exists a b : string, s = (a ++ substr ++ b)%string.
Proof.
  intro s. split.
  - induction s as [|c s IH]; rewrite Contains_unfold; intro Hc;
      apply orb_true_iff in Hc; destruct Hc as [Hp|Hc].
    + exists EmptyString, (strings.drop (String.length substr) EmptyString).
      exact (HasPrefix_split substr _ Hp).
    + discriminate.
    + exists EmptyString, (strings.drop (String.length substr) (String c s)).
      exact (HasPrefix_split substr _ Hp).
    + destruct (IH Hc) as [a [b E]].
      exists (String c a), b. cbn [append]. rewrite E. reflexivity.
  - intros [a [b E]]. subst s. induction a as [|c a IH].
    + cbn [append]. rewrite Contains_unfold, HasPrefix_append. reflexivity.
    + cbn [append]. rewrite Contains_unfold, IH. apply orb_true_r.
Qed.

(** ** [isValidURL] *)

(** The string [isValidURL] hands to the parser. *)
Definition with_default_scheme (s : string) : string :=
  if strings.Contains s "://" then s else ("http://" ++ s)%string.

Lemma isValidURL_unfold `{net_url} (s : string) :
  isValidURL s
  = match ParseRequestURI (with_default_scheme s) with
    | Err _ => false
    | Ok parsed =>
        if negb (String.eqb (Scheme parsed) "http")
           && negb (String.eqb (Scheme parsed) "https")
        then false
        else true
    end.
Proof.
  unfold isValidURL, with_default_scheme.
  destruct (strings.Contains s "://"); reflexivity.
Qed.

Lemma scheme_check (u : URL) :
  (if negb (String.eqb (Scheme u) "http")
      && negb (String.eqb (Scheme u) "https")
   then false else true) = true
  <-> (Scheme u = "http"%string \/ Scheme u = "https"%string).
Proof.
  destruct (String.eqb_spec (Scheme u) "http") as [E1|E1];
    destruct (String.eqb_spec (Scheme u) "https") as [E2|E2];
    cbn [negb andb]; split; auto; try discriminate.
  intros [E|E]; contradiction.
Qed.

(** The specification's wording: [s] contains ["://"], that is, [s] is
    some string, then ["://"], then some string. *)
Definition has_scheme_separator (s : string) : Prop :=
  exists a b : string, s = (a ++ "://" ++ b)%string.

Lemma with_default_scheme_spec (s : string) :
  (has_scheme_separator s /\ with_default_scheme s = s) \/
  (~ has_scheme_separator s /\
   with_default_scheme s = ("http://" ++ s)%string).
Proof.
  unfold with_default_scheme, has_scheme_separator.
  destruct (strings.Contains s "://") eqn:E.
  - left. split; [apply (Contains_spec "://"); exact E | reflexivity].
  - right. split; [|reflexivity].
    intro Hsep. apply (Contains_spec "://") in Hsep. congruence.
Qed.

(** The verdict on [s] when [t] is the string handed to the parser. *)
Lemma isValidURL_parse `{net_url} (s t : string) :
  with_default_scheme s = t ->
  (isValidURL s = true <->
   exists u, ParseRequestURI t = Ok u /\
             (Scheme u = "http"%string \/ Scheme u = "https"%string)) /\
  (forall e, ParseRequestURI t = Err e -> isValidURL s = false).
Proof.
  intro Ht. rewrite isValidURL_unfold, Ht.
  destruct (ParseRequestURI t) as [u|e]; split.
  - rewrite scheme_check. split.
    + intro Hs. exists u. auto.
    + intros [u' [Hu Hs]]. inversion Hu. subst u'. exact Hs.
  - intros e He. discriminate.
  - split; [discriminate|]. intros [u [Hu _]]. discriminate.
  - intros _ _. reflexivity.
Qed.

(** C6: a string that contains ["://"] is parsed as it is, and a string
    that does not is parsed with ["http://"] put in front of it; in both
    cases [isValidURL] holds exactly when the parse succeeds with a URL
    whose scheme is ["http"] or ["https"], and a parse failure gives
    [false].  The validator is a function of its argument alone. *)
Theorem C6_isValidURL_scheme `{net_url} (s : string) :
  (has_scheme_separator s ->
   (isValidURL s = true <->
    exists u, ParseRequestURI s = Ok u /\
              (Scheme u = "http"%string \/ Scheme u = "https"%string)) /\
   (forall e, ParseRequestURI s = Err e -> isValidURL s = false)) /\
  (~ has_scheme_separator s ->
   (isValidURL s = true <->
    exists u, ParseRequestURI ("http://" ++ s)%string = Ok u /\
              (Scheme u = "http"%string \/ Scheme u = "https"%string)) /\
   (forall e, ParseRequestURI ("http://" ++ s)%string = Err e ->
              isValidURL s = false)).
Proof.
  destruct (with_default_scheme_spec s) as [[Hsep E]|[Hno E]]; split;
    intro Hcase; try contradiction;
    exact (isValidURL_parse s _ E).
Qed.

(** Stands for Go's [url.ParseRequestURI] on three strings: it parses
    ["http://example.com"] with scheme ["http"] and ["ftp://example.com"]
    with scheme ["ftp"], and refuses ["example.com"] (no scheme and no
    leading slash); no other string is given to it below. *)
Definition three_urls : net_url :=
  {| ParseRequestURI := fun s =>
       if String.eqb s "http://example.com"
       then Ok {| Scheme := "http"; Host := "example.com"; Path := "" |}
       else if String.eqb s "ftp://example.com"
       then Ok {| Scheme := "ftp"; Host := "example.com"; Path := "" |}
       else Err ErrURLParse |}.

Lemma C6_isValidURL_scheme_witness :
  @isValidURL three_urls "example.com" = true /\
  @isValidURL three_urls "ftp://example.com" = false.
Proof.
  split.
  - destruct (@C6_isValidURL_scheme three_urls "example.com")
      as [_ Hbare].
    assert (Hno : ~ has_scheme_separator "example.com").
    { intro Hsep. apply (Contains_spec "://") in Hsep.
      vm_compute in Hsep. discriminate. }
    destruct (Hbare Hno) as [Hiff _]. apply Hiff.
    eexists. split; [vm_compute; reflexivity | left; reflexivity].
  - destruct (@C6_isValidURL_scheme three_urls "ftp://example.com")
      as [Hfull _].
    assert (Hsep : has_scheme_separator "ftp://example.com")
      by (exists "ftp"%string, "example.com"%string; reflexivity).
    destruct (Hfull Hsep) as [Hiff _].
    destruct (@isValidURL three_urls "ftp://example.com") eqn:E;
      [|reflexivity].
    destruct (proj1 Hiff eq_refl) as [u [Hu Hs]].
    vm_compute in Hu. inversion Hu. subst u.
    destruct Hs as [Hs|Hs]; discriminate.
Defined.

(** ** [genRandomCode] *)

Definition in_alphabet (c : ascii) : Prop := strings.mem c alphabet = true.

Definition set_rand_pos (p : nat) (w : World) : World :=
  {| db := db w; env := env w; clock := clock w; clock_pos := clock_pos w;
     rand_src := rand_src w; rand_pos := p |}.

(** The characters [n] successive draws from position [p] select, up to
    the first failing read. *)
Fixpoint drawn (src : nat -> option Z) (n p : nat) : result (list ascii) :=
  match n with
  | O => Ok []
  | S n' =>
      match src p with
      | None => Err ErrRandRead
      | Some raw =>
          match String.get (Z.to_nat (raw mod 62)) alphabet with
          | None => Err PanicIndexOutOfRange
          | Some c =>
              match drawn src n' (S p) with
              | Ok cs => Ok (c :: cs)
              | Err e => Err e
              end
          end
      end
  end.

(** The number of reads those draws make. *)
Fixpoint reads (src : nat -> option Z) (n p : nat) : nat :=
  match n with
  | O => O
  | S n' =>
      match src p with
      | None => 1
      | Some _ => S (reads src n' (S p))
      end
  end.

Lemma get_mem (s : string) :
  forall n : nat, (n < String.length s)%nat ->
    exists c, String.get n s = Some c /\ strings.mem c s = true.
Proof.
  induction s as [|d s IH]; intros n Hn; simpl in Hn; [lia|].
  destruct n as [|n].
  - exists d. split; [reflexivity|]. simpl. rewrite Ascii.eqb_refl. reflexivity.
  - destruct (IH n ltac:(lia)) as [c [Hg Hm]].
    exists c. split; [exact Hg|]. simpl. rewrite Hm. apply orb_true_r.
Qed.

Lemma alphabet_at (raw : Z) :
  exists c, String.get (Z.to_nat (raw mod 62)) alphabet = Some c /\ in_alphabet c.
Proof.
  apply get_mem.
  change (String.length alphabet) with 62%nat.
  pose proof (Z.mod_pos_bound raw 62 ltac:(lia)). lia.
Qed.

Lemma store_byte_spec (c : ascii) (b : list ascii) :
  forall i : nat, (i < List.length b)%nat ->
    store_byte i c b = Some (firstn i b ++ c :: skipn (S i) b).
Proof.
  induction b as [|x b IH]; intros i Hi; simpl in Hi; [lia|].
  destruct i as [|i]; [reflexivity|].
  cbn [store_byte]. rewrite IH by lia. reflexivity.
Qed.

Lemma genRandomCode_loop_spec (n : nat) :
  forall (i : nat) (b : list ascii) (w : World),
    List.length b = (i + n)%nat ->
    genRandomCode_loop n i b w
    = (match drawn (rand_src w) n (rand_pos w) with
       | Ok cs => Ok (firstn i b ++ cs)
       | Err e => Err e
       end,
       set_rand_pos (rand_pos w + reads (rand_src w) n (rand_pos w)) w).
Proof.
  induction n as [|n IH]; intros i b w Hb.
  - cbn [genRandomCode_loop drawn reads ret].
    rewrite Nat.add_0_r in *. rewrite app_nil_r.
    rewrite <- Hb, firstn_all. destruct w; reflexivity.
  - cbn [genRandomCode_loop drawn reads].
    unfold bind, rand_Int. cbn [rand_src rand_pos].
    change (Z.of_nat (String.length alphabet)) with 62.
    destruct (rand_src w (rand_pos w)) as [raw|] eqn:Esrc.
    + destruct (alphabet_at raw) as [c [Hc _]]. rewrite Hc.
      rewrite store_byte_spec by lia.
      rewrite IH.
      * cbn [rand_src rand_pos].
        destruct (drawn (rand_src w) n (S (rand_pos w))) as [cs|e].
        -- f_equal.
           ++ f_equal. rewrite firstn_app.
              rewrite firstn_firstn, Nat.min_r by lia.
              rewrite length_firstn, Nat.min_l by lia.
              replace (S i - i)%nat with 1%nat by lia.
              cbn [firstn]. rewrite <- app_assoc. reflexivity.
           ++ unfold set_rand_pos. cbn. f_equal. lia.
        -- f_equal. unfold set_rand_pos. cbn. f_equal. lia.
      * rewrite length_app, length_firstn. cbn [List.length].
        rewrite length_skipn. lia.
    + unfold ret, set_rand_pos. cbn. f_equal. f_equal. lia.
Qed.

(** The length [genRandomCode] works with. *)
Definition code_length (length : Z) : nat :=
  Z.to_nat (if length <=? 0 then DefaultCodeLen else length).

Lemma genRandomCode_spec (length : Z) (w : World) :
  genRandomCode length w
  = (match drawn (rand_src w) (code_length length) (rand_pos w) with
     | Ok cs => Ok (string_of_list_ascii cs)
     | Err e => Err e
     end,
     set_rand_pos
       (rand_pos w + reads (rand_src w) (code_length length) (rand_pos w)) w).
Proof.
  unfold genRandomCode, bind, code_length.
  rewrite genRandomCode_loop_spec by (rewrite repeat_length; reflexivity).
  cbn [firstn app].
  destruct (drawn _ _ _); reflexivity.
Qed.

Lemma drawn_ok (src : nat -> option Z) (n : nat) :
  forall p : nat,
    (forall j, (j < n)%nat -> src (p + j)%nat <> None) ->
    exists cs, drawn src n p = Ok cs /\ List.length cs = n /\
               Forall in_alphabet cs.
Proof.
  induction n as [|n IH]; intros p Hsrc.
  - exists []. repeat split. constructor.
  - cbn [drawn].
    pose proof (Hsrc 0%nat ltac:(lia)) as H0. rewrite Nat.add_0_r in H0.
    destruct (src p) as [raw|]; [|congruence].
    destruct (alphabet_at raw) as [c [Hc Hin]]. rewrite Hc.
    destruct (IH (S p)) as [cs [Hcs [Hlen Hall]]].
    { intros j Hj. replace (S p + j)%nat with (p + S j)%nat by lia.
      apply Hsrc. lia. }
    rewrite Hcs. exists (c :: cs). repeat split.
    + simpl. lia.
    + constructor; assumption.
Qed.

Lemma drawn_err (src : nat -> option Z) (n : nat) :
  forall p j : nat,
    (j < n)%nat -> src (p + j)%nat = None -> drawn src n p = Err ErrRandRead.
Proof.
  induction n as [|n IH]; intros p j Hj Hnone; [lia|].
  cbn [drawn].
  destruct (src p) as [raw|] eqn:E; [|reflexivity].
  destruct (alphabet_at raw) as [c [Hc _]]. rewrite Hc.
  destruct j as [|j]; [rewrite Nat.add_0_r in Hnone; congruence|].
  rewrite (IH (S p) j); [reflexivity | lia |].
  replace (S p + j)%nat with (p + S j)%nat by lia. exact Hnone.
Qed.

Lemma all_chars_of_list (P : ascii -> Prop) (cs : list ascii) :
  Forall P cs -> all_chars P (string_of_list_ascii cs).
Proof. induction 1; simpl; auto. Qed.

Lemma length_of_list (cs : list ascii) :
  String.length (string_of_list_ascii cs) = List.length cs.
Proof. induction cs; simpl; congruence. Qed.

(** C8: [genRandomCode length] works with [length] characters, or with 6
    when [length <= 0].  When the reads of the random source succeed, it
    returns a code of exactly that many characters, each one of the 62 of
    [alphabet]; when one of those reads fails, it returns the error of the
    read and no code. *)
Theorem C8_genRandomCode_length_alphabet (length : Z) (w : World) :
  String.length alphabet = 62%nat /\
  code_length length = Z.to_nat (if 0 <? length then length else 6) /\
  ((forall j, (j < code_length length)%nat ->
              rand_src w (rand_pos w + j)%nat <> None) ->
   exists s, fst (genRandomCode length w) = Ok s /\
             String.length s = code_length length /\
             all_chars in_alphabet s) /\
  (forall j, (j < code_length length)%nat ->
             rand_src w (rand_pos w + j)%nat = None ->
             fst (genRandomCode length w) = Err ErrRandRead).
Proof.
  split; [reflexivity|]. split.
  { unfold code_length, DefaultCodeLen.
    destruct (Z.leb_spec length 0); destruct (Z.ltb_spec 0 length);
      try reflexivity; lia. }
  rewrite genRandomCode_spec. cbn [fst]. split.
  - intro Hsrc.
    destruct (drawn_ok _ _ _ Hsrc) as [cs [Hcs [Hlen Hall]]].
    rewrite Hcs. exists (string_of_list_ascii cs). split; [reflexivity|].
    split; [rewrite length_of_list; exact Hlen|].
    apply all_chars_of_list. exact Hall.
  - intros j Hj Hnone. rewrite (drawn_err _ _ _ j Hj Hnone). reflexivity.
Qed.

(** ** The table *)

Lemma has_code_true (code : string) (l : ShortLink) :
  has_code code l = true <-> Code l = code.
Proof. unfold has_code. apply String.eqb_eq. Qed.

Lemma db_First_cases (code : string) (d : DB) :
  (exists l, db_First code d = Ok l /\ stored d l /\ Code l = code) \/
  (db_First code d = Err ErrRecordNotFound /\ ~ stored_code d code).
Proof.
  unfold db_First, stored_code, stored.
  destruct (find (has_code code) (rows d)) as [l|] eqn:E.
  - left. exists l. apply find_some in E. destruct E as [Hin Hc].
    apply has_code_true in Hc. auto.
  - right. split; [reflexivity|]. intros [l [Hin Hc]].
    apply (find_none _ _ E) in Hin. apply has_code_true in Hc. congruence.
Qed.

Lemma db_First_stored (code : string) (d : DB) (l : ShortLink) :
  db_First code d = Ok l -> stored d l /\ Code l = code.
Proof.
  destruct (db_First_cases code d) as [[l' [E H]]|[E _]]; rewrite E;
    intro H'; inversion H'; subst; auto.
Qed.

Lemma db_First_absent (code : string) (d : DB) :
  ~ stored_code d code -> db_First code d = Err ErrRecordNotFound.
Proof.
  destruct (db_First_cases code d) as [[l [_ [Hin Hc]]]|[E _]]; [|auto].
  intro H. exfalso. apply H. exists l. auto.
Qed.

Lemma db_First_present (code : string) (d : DB) :
  stored_code d code -> exists l, db_First code d = Ok l.
Proof.
  destruct (db_First_cases code d) as [[l [E _]]|[_ H]]; [eauto | tauto].
Qed.

Lemma NoDup_map_eq {A B : Type} (f : A -> B) (l : list A) (x y : A) :
  NoDup (map f l) -> In x l -> In y l -> f x = f y -> x = y.
Proof.
  induction l as [|a l IH]; simpl; [tauto|].
  intros Hnd Hx Hy Hf. inversion Hnd as [|? ? Hni Hnd']; subst.
  destruct Hx as [Hx|Hx], Hy as [Hy|Hy]; subst; auto.
  - exfalso. apply Hni. rewrite Hf. apply in_map. exact Hy.
  - exfalso. apply Hni. rewrite <- Hf. apply in_map. exact Hx.
Qed.

(** With unique codes, the row [First] finds is the stored one. *)
Lemma db_First_wf (d : DB) (l : ShortLink) :
  db_wf d -> stored d l -> db_First (Code l) d = Ok l.
Proof.
  intros [_ [Hcodes _]] Hin.
  destruct (db_First_cases (Code l) d) as [[l' [E [Hin' Hc]]]|[_ H]].
  - rewrite E. f_equal. exact (NoDup_map_eq Code _ _ _ Hcodes Hin' Hin Hc).
  - exfalso. apply H. exists l. auto.
Qed.

Lemma find_map_invariant {A : Type} (p : A -> bool) (f : A -> A) (l : list A) :
  (forall x, p (f x) = p x) ->
  find p (map f l) = option_map f (find p l).
Proof.
  intro Hp. induction l as [|a l IH]; [reflexivity|].
  simpl. rewrite Hp. destruct (p a); [reflexivity | exact IH].
Qed.

Lemma db_First_update (code : string) (link : ShortLink) (n : Z) (d : DB) :
  ID link <> 0 ->
  db_First code (db_UpdateColumn_clicks link n d)
  = match db_First code d with
    | Ok x => Ok (if ID x =? ID link then add_clicks n x else x)
    | Err e => Err e
    end.
Proof.
  intro Hid. unfold db_UpdateColumn_clicks, db_First.
  apply Z.eqb_neq in Hid. rewrite Hid. cbn [rows].
  rewrite find_map_invariant.
  - destruct (find (has_code code) (rows d)); reflexivity.
  - intro x. destruct (ID x =? ID link); reflexivity.
Qed.

Lemma db_wf_key (d : DB) (l : ShortLink) :
  db_wf d -> stored d l -> ID l <> 0.
Proof.
  intros [_ [_ [Hpos _]]] Hin.
  apply (proj1 (Forall_forall _ _) Hpos) in Hin. lia.
Qed.

Lemma db_update_stored (link : ShortLink) (n : Z) (d : DB) (l' : ShortLink) :
  db_wf d -> stored d link ->
  stored (db_UpdateColumn_clicks link n d) l' ->
  (stored d l' /\ ID l' <> ID link) \/ l' = add_clicks n link.
Proof.
  intros Hwf Hin. pose proof (db_wf_key _ _ Hwf Hin) as Hid.
  destruct Hwf as [Hids _].
  unfold db_UpdateColumn_clicks, stored in *.
  apply Z.eqb_neq in Hid. rewrite Hid. cbn [rows].
  intro H. apply in_map_iff in H. destruct H as [x [Hx Hinx]].
  destruct (Z.eqb_spec (ID x) (ID link)) as [E|E].
  - right. rewrite <- Hx. f_equal.
    exact (NoDup_map_eq ID _ _ _ Hids Hinx Hin E).
  - left. subst l'. auto.
Qed.

Lemma db_update_keeps (link : ShortLink) (n : Z) (d : DB) (x : ShortLink) :
  stored d x -> ID x <> ID link ->
  stored (db_UpdateColumn_clicks link n d) x.
Proof.
  unfold db_UpdateColumn_clicks, stored. intros Hin Hne.
  destruct (ID link =? 0); [exact Hin|]. cbn [rows].
  apply in_map_iff. exists x. split; [|exact Hin].
  apply Z.eqb_neq in Hne. rewrite Hne. reflexivity.
Qed.

Lemma db_update_bumps (link : ShortLink) (n : Z) (d : DB) :
  db_wf d -> stored d link ->
  stored (db_UpdateColumn_clicks link n d) (add_clicks n link).
Proof.
  intros Hwf Hin. pose proof (db_wf_key _ _ Hwf Hin) as Hid.
  unfold db_UpdateColumn_clicks, stored in *.
  apply Z.eqb_neq in Hid. rewrite Hid. cbn [rows].
  apply in_map_iff. exists link. split; [|exact Hin].
  rewrite Z.eqb_refl. reflexivity.
Qed.

(** ** [handleRedirect] *)

(** The world after one reading of the clock. *)
Definition tick (w : World) : World := snd (time_Now w).

Definition gone_response : Response :=
  JSON StatusGone (H_error "短链已过期").

Definition not_found_response : Response :=
  JSON StatusNotFound (H_error "短链不存在").

Lemma handleRedirect_absent (code : string) (w : World) :
  code <> EmptyString -> ~ stored_code (db w) code ->
  handleRedirect code w = (not_found_response, w).
Proof.
  intros Hne Habs. unfold handleRedirect.
  rewrite (string_eqb_false _ _ Hne).
  unfold bind, First. rewrite (db_First_absent _ _ Habs). reflexivity.
Qed.

Lemma handleRedirect_found (code : string) (w : World) (l : ShortLink) :
  code <> EmptyString -> db_First code (db w) = Ok l ->
  handleRedirect code w
  = if Valid (ExpiredAt l) then
      if Time (ExpiredAt l) <? now_of w
      then (gone_response, tick w)
      else (Redirect StatusFound (TargetURL l),
            set_db (db_UpdateColumn_clicks l 1 (db w)) (tick w))
    else (Redirect StatusFound (TargetURL l),
          set_db (db_UpdateColumn_clicks l 1 (db w)) w).
Proof.
  intros Hne Hfound. unfold handleRedirect.
  rewrite (string_eqb_false _ _ Hne).
  unfold bind, First. rewrite Hfound.
  destruct (Valid (ExpiredAt l)); [|reflexivity].
  unfold time_Now, time_After, now_of, tick, time_Now. cbn [snd].
  destruct (Time (ExpiredAt l) <? clock w (clock_pos w)); reflexivity.
Qed.

(** C3: a redirect of a code that no stored link has answers "not found"
    (404) and leaves the world as it was; a redirect of a code whose stored
    link is expired (expiry set and in the past) answers "gone" (410) and
    leaves the table, hence the link's clicks, unchanged.  The router
    hands the handler a non-empty [code]. *)
Theorem C3_redirect_not_found_or_gone (code : string) (w : World)
  (Hcode : code <> EmptyString) (Hwf : db_wf (db w)) :
  (~ stored_code (db w) code ->
   handleRedirect code w = (JSON StatusNotFound (H_error "短链不存在"), w)) /\
  (forall l, stored (db w) l -> Code l = code -> expired_at (now_of w) l ->
             fst (handleRedirect code w)
             = JSON StatusGone (H_error "短链已过期") /\
             db (snd (handleRedirect code w)) = db w /\
             stored (db (snd (handleRedirect code w))) l).
Proof.
  split.
  - intro Habs. exact (handleRedirect_absent code w Hcode Habs).
  - intros l Hin Hc [Hvalid Hpast].
    pose proof (db_First_wf _ _ Hwf Hin) as Hfound. rewrite Hc in Hfound.
    rewrite (handleRedirect_found code w l Hcode Hfound).
    rewrite Hvalid. apply Z.ltb_lt in Hpast. rewrite Hpast.
    cbn [fst snd]. unfold tick, time_Now. cbn [snd db].
    repeat split. exact Hin.
Qed.

(** C9: the comparison with the expiry is strict.  For the stored link of
    a code, "gone" is answered exactly when the expiry is set and strictly
    before the reading of the clock; when the expiry is set and equal to
    that reading, the redirect succeeds: 302 to the target, and the link's
    clicks go up by one while every other code's link stays as it was. *)
Theorem C9_expiry_is_strict (code : string) (w : World) (l : ShortLink)
  (Hcode : code <> EmptyString) (Hwf : db_wf (db w))
  (Hin : stored (db w) l) (Hc : Code l = code) :
  (fst (handleRedirect code w) = JSON StatusGone (H_error "短链已过期")
   <-> (Valid (ExpiredAt l) = true /\ Time (ExpiredAt l) < now_of w)) /\
  (Valid (ExpiredAt l) = true -> Time (ExpiredAt l) = now_of w ->
   fst (handleRedirect code w) = Redirect StatusFound (TargetURL l) /\
   db_First code (db (snd (handleRedirect code w)))
   = Ok (add_clicks 1 l) /\
   Clicks (add_clicks 1 l) = Clicks l + 1 /\
   forall c, c <> code ->
             db_First c (db (snd (handleRedirect code w)))
             = db_First c (db w)).
Proof.
  pose proof (db_First_wf _ _ Hwf Hin) as Hfound. rewrite Hc in Hfound.
  rewrite (handleRedirect_found code w l Hcode Hfound).
  split.
  - destruct (Valid (ExpiredAt l)).
    + destruct (Z.ltb_spec (Time (ExpiredAt l)) (now_of w)); cbn [fst].
      * split; auto.
      * split; [discriminate | intros [_ H']; lia].
    + cbn [fst]. split; [discriminate | intros [H' _]; discriminate].
  - intros Hvalid Hnow. rewrite Hvalid, Hnow, Z.ltb_irrefl. cbn [fst snd].
    unfold tick, time_Now, set_db. cbn [snd db].
    pose proof (db_wf_key _ _ Hwf Hin) as Hid.
    split; [reflexivity|]. split; [|split; [reflexivity|]].
    + rewrite (db_First_update _ _ _ _ Hid), Hfound, Z.eqb_refl. reflexivity.
    + intros c Hne. rewrite (db_First_update _ _ _ _ Hid).
      destruct (db_First_cases c (db w)) as [[x [E [Hx Hcx]]]|[E _]];
        rewrite E; [|reflexivity].
      destruct (Z.eqb_spec (ID x) (ID l)) as [Eid|Eid]; [|reflexivity].
      exfalso. destruct Hwf as [Hids _].
      assert (x = l) by exact (NoDup_map_eq ID _ _ _ Hids Hx Hin Eid).
      subst x. congruence.
Qed.

(** ** [handleCreate]: the choice of the code *)

(** The code built from the six draws that start at position [p]. *)
Definition code_at (src : nat -> option Z) (p : nat) : result string :=
  match drawn src 6 p with
  | Ok cs => Ok (string_of_list_ascii cs)
  | Err e => Err e
  end.

(** The code of the [k]-th round of the generation loop, counted from 0. *)
Definition attempt (w : World) (k : nat) : result string :=
  code_at (rand_src w) (rand_pos w + 6 * k).

(** [w1] differs from [w] at most by reads of the random source. *)
Definition only_reads (w w1 : World) : Prop :=
  db w1 = db w /\ env w1 = env w /\ clock w1 = clock w /\
  clock_pos w1 = clock_pos w /\ rand_src w1 = rand_src w /\
  (rand_pos w <= rand_pos w1)%nat.

Definition generation_failed : Response :=
  JSON StatusInternalServerError (H_error "生成短码失败").

Definition generation_conflict : Response :=
  JSON StatusInternalServerError (H_error "生成短码冲突，稍后重试").

Definition custom_conflict : Response :=
  JSON StatusConflict (H_error "自定义短码已存在").

Lemma reads_le (src : nat -> option Z) (n : nat) :
  forall p, (reads src n p <= n)%nat.
Proof.
  induction n as [|n IH]; intro p; cbn [reads]; [lia|].
  destruct (src p); [specialize (IH (S p))|]; lia.
Qed.

Lemma reads_ok (src : nat -> option Z) (n : nat) :
  forall p cs, drawn src n p = Ok cs ->
               reads src n p = n /\ List.length cs = n /\ Forall in_alphabet cs.
Proof.
  induction n as [|n IH]; intros p cs; cbn [drawn reads].
  - intro H. inversion H. repeat split. constructor.
  - destruct (src p) as [raw|]; [|discriminate].
    destruct (alphabet_at raw) as [c [Hc Hin]]. rewrite Hc.
    destruct (drawn src n (S p)) as [cs'|e] eqn:E; [|discriminate].
    intro H. inversion H. destruct (IH _ _ E) as [Hr [Hl Ha]].
    repeat split; [lia | simpl; lia | constructor; assumption].
Qed.

Lemma code_at_ok (src : nat -> option Z) (p : nat) (c : string) :
  code_at src p = Ok c ->
  reads src 6 p = 6%nat /\ String.length c = 6%nat /\ all_chars in_alphabet c.
Proof.
  unfold code_at. destruct (drawn src 6 p) as [cs|e] eqn:E; [|discriminate].
  intro H. inversion H. destruct (reads_ok _ _ _ _ E) as [Hr [Hl Ha]].
  split; [exact Hr|]. split; [rewrite length_of_list; exact Hl|].
  apply all_chars_of_list. exact Ha.
Qed.

Lemma genRandomCode_default (w : World) :
  genRandomCode DefaultCodeLen w
  = (code_at (rand_src w) (rand_pos w),
     set_rand_pos (rand_pos w + reads (rand_src w) 6 (rand_pos w)) w).
Proof. rewrite genRandomCode_spec. reflexivity. Qed.

(** One round of the loop. *)
Lemma handleCreate_loop_step (i : Z) (rounds : list Z) (code0 : string)
      (w : World) :
  handleCreate_loop (i :: rounds) code0 w
  = match code_at (rand_src w) (rand_pos w) with
    | Err _ =>
        (inl generation_failed,
         set_rand_pos (rand_pos w + reads (rand_src w) 6 (rand_pos w)) w)
    | Ok c =>
        match db_First c (db w) with
        | Err ErrRecordNotFound => (inr c, set_rand_pos (rand_pos w + 6) w)
        | _ =>
            if i =? 4
            then (inl generation_conflict, set_rand_pos (rand_pos w + 6) w)
            else handleCreate_loop rounds c (set_rand_pos (rand_pos w + 6) w)
        end
    end.
Proof.
  cbn [handleCreate_loop]. unfold bind at 1. rewrite genRandomCode_default.
  destruct (code_at (rand_src w) (rand_pos w)) as [c|e] eqn:E; [|reflexivity].
  destruct (code_at_ok _ _ _ E) as [Hr _]. rewrite Hr.
  unfold bind, First. cbn [db set_rand_pos].
  destruct (db_First c (db w)) as [l|[]]; try reflexivity;
    destruct (i =? 4); reflexivity.
Qed.

Lemma only_reads_set (w : World) (p : nat) :
  (rand_pos w <= p)%nat -> only_reads w (set_rand_pos p w).
Proof. intro H. unfold only_reads, set_rand_pos. cbn. tauto. Qed.

Lemma only_reads_trans (w w1 w2 : World) :
  only_reads w w1 -> only_reads w1 w2 -> only_reads w w2.
Proof.
  unfold only_reads.
  intros [A1 [A2 [A3 [A4 [A5 A6]]]]] [B1 [B2 [B3 [B4 [B5 B6]]]]].
  repeat split; try congruence. lia.
Qed.

(** Whatever the loop does, it only reads the random source, at most six
    times a round; a response it writes is an error. *)
Lemma handleCreate_loop_frame (rounds : list Z) :
  forall (code0 : string) (w : World),
    only_reads w (snd (handleCreate_loop rounds code0 w)) /\
    (rand_pos (snd (handleCreate_loop rounds code0 w))
     <= rand_pos w + 6 * List.length rounds)%nat /\
    (forall r, fst (handleCreate_loop rounds code0 w) = inl r ->
               r = generation_failed \/ r = generation_conflict).
Proof.
  induction rounds as [|i rounds IH]; intros code0 w.
  - cbn. repeat split; try lia. discriminate.
  - rewrite handleCreate_loop_step.
    pose proof (reads_le (rand_src w) 6 (rand_pos w)) as Hle.
    destruct (code_at (rand_src w) (rand_pos w)) as [c|e].
    + assert (Hstep : only_reads w (set_rand_pos (rand_pos w + 6) w))
        by (apply only_reads_set; lia).
      assert (Hmore :
                only_reads w (snd (handleCreate_loop rounds c
                                     (set_rand_pos (rand_pos w + 6) w))) /\
                (rand_pos (snd (handleCreate_loop rounds c
                                  (set_rand_pos (rand_pos w + 6) w)))
                 <= rand_pos w + 6 * List.length (i :: rounds))%nat /\
                (forall r, fst (handleCreate_loop rounds c
                                  (set_rand_pos (rand_pos w + 6) w)) = inl r ->
                           r = generation_failed \/ r = generation_conflict)).
      { destruct (IH c (set_rand_pos (rand_pos w + 6) w)) as [F [B R]].
        split; [exact (only_reads_trans _ _ _ Hstep F)|].
        split; [|exact R]. cbn [rand_pos set_rand_pos List.length] in *. lia. }
      assert (Hstop : forall r : Response,
                 r = generation_failed \/ r = generation_conflict ->
                 only_reads w (snd (@inl Response string r,
                                    set_rand_pos (rand_pos w + 6) w)) /\
                 (rand_pos (snd (@inl Response string r,
                                 set_rand_pos (rand_pos w + 6) w))
                  <= rand_pos w + 6 * List.length (i :: rounds))%nat /\
                 (forall r', fst (@inl Response string r,
                                  set_rand_pos (rand_pos w + 6) w) = inl r' ->
                             r' = generation_failed \/ r' = generation_conflict)).
      { intros r Hr. cbn [fst snd rand_pos set_rand_pos List.length].
        split; [exact Hstep|]. split; [lia|].
        intros r' E. inversion E. subst. exact Hr. }
      destruct (db_First c (db w)) as [l|[]];
        try (destruct (i =? 4); [apply Hstop; auto | exact Hmore]).
      cbn [fst snd rand_pos set_rand_pos List.length].
      split; [exact Hstep|]. split; [lia | discriminate].
    + cbn [fst snd rand_pos set_rand_pos List.length].
      split; [apply only_reads_set; lia|]. split; [lia|].
      intros r E. inversion E. auto.
Qed.

Lemma attempt_shift (w : World) (j : nat) :
  attempt (set_rand_pos (rand_pos w + 6) w) j = attempt w (S j).
Proof.
  unfold attempt. cbn [rand_src rand_pos set_rand_pos].
  f_equal. lia.
Qed.

Lemma attempt_first (w : World) :
  attempt w 0 = code_at (rand_src w) (rand_pos w).
Proof. unfold attempt. f_equal. lia. Qed.

(** [k] rounds collide and the next code is free: the loop leaves with it. *)
Lemma handleCreate_loop_accepts (k : nat) :
  forall (rounds : list Z) (code0 : string) (w : World) (c : string),
    (k < List.length rounds)%nat ->
    (forall j, (j < k)%nat -> nth j rounds 0 <> 4) ->
    (forall j, (j < k)%nat ->
               exists cj, attempt w j = Ok cj /\ stored_code (db w) cj) ->
    attempt w k = Ok c -> ~ stored_code (db w) c ->
    handleCreate_loop rounds code0 w
    = (inr c, set_rand_pos (rand_pos w + 6 * S k) w).
Proof.
  induction k as [|k IH]; intros rounds code0 w c Hlen Hno4 Hcoll Hk Hfree;
    (destruct rounds as [|i rounds]; [simpl in Hlen; lia|]);
    rewrite handleCreate_loop_step.
  - rewrite attempt_first in Hk. rewrite Hk.
    rewrite (db_First_absent _ _ Hfree). reflexivity.
  - destruct (Hcoll 0%nat ltac:(lia)) as [c0 [H0 Hst]].
    rewrite attempt_first in H0. rewrite H0.
    destruct (db_First_present _ _ Hst) as [l El]. rewrite El.
    pose proof (Hno4 0%nat ltac:(lia)) as Hi. cbn [nth] in Hi.
    apply Z.eqb_neq in Hi. rewrite Hi.
    rewrite (IH rounds c0 (set_rand_pos (rand_pos w + 6) w) c).
    + cbn [rand_pos set_rand_pos]. unfold set_rand_pos. cbn. f_equal. f_equal. lia.
    + simpl in Hlen. lia.
    + intros j Hj. exact (Hno4 (S j) ltac:(lia)).
    + intros j Hj. rewrite attempt_shift. exact (Hcoll (S j) ltac:(lia)).
    + rewrite attempt_shift. exact Hk.
    + exact Hfree.
Qed.

(** The rounds up to the one numbered 4 all collide: the loop gives up. *)
Lemma handleCreate_loop_exhausts (k : nat) :
  forall (rounds : list Z) (code0 : string) (w : World),
    (k < List.length rounds)%nat ->
    (forall j, (j < k)%nat -> nth j rounds 0 <> 4) ->
    nth k rounds 0 = 4 ->
    (forall j, (j <= k)%nat ->
               exists cj, attempt w j = Ok cj /\ stored_code (db w) cj) ->
    handleCreate_loop rounds code0 w
    = (inl generation_conflict, set_rand_pos (rand_pos w + 6 * S k) w).
Proof.
  induction k as [|k IH]; intros rounds code0 w Hlen Hno4 H4 Hcoll;
    (destruct rounds as [|i rounds]; [simpl in Hlen; lia|]);
    rewrite handleCreate_loop_step;
    destruct (Hcoll 0%nat ltac:(lia)) as [c0 [H0 Hst]];
    rewrite attempt_first in H0; rewrite H0;
    destruct (db_First_present _ _ Hst) as [l El]; rewrite El.
  - cbn [nth] in H4. rewrite H4. reflexivity.
  - pose proof (Hno4 0%nat ltac:(lia)) as Hi. cbn [nth] in Hi.
    apply Z.eqb_neq in Hi. rewrite Hi.
    rewrite (IH rounds c0 (set_rand_pos (rand_pos w + 6) w)).
    + unfold set_rand_pos. cbn. f_equal. f_equal. lia.
    + simpl in Hlen. lia.
    + intros j Hj. exact (Hno4 (S j) ltac:(lia)).
    + exact H4.
    + intros j Hj. rewrite attempt_shift. exact (Hcoll (S j) ltac:(lia)).
Qed.

(** When the round numbered 4 is among the rounds, a code the loop leaves
    with is one it generated and did not find in the table. *)
Lemma handleCreate_loop_code (rounds : list Z) :
  forall (code0 : string) (w : World) (c : string),
    In 4 rounds ->
    fst (handleCreate_loop rounds code0 w) = inr c ->
    db_First c (db w) = Err ErrRecordNotFound /\ String.length c = 6%nat.
Proof.
  induction rounds as [|i rounds IH]; intros code0 w c Hin; [destruct Hin|].
  rewrite handleCreate_loop_step.
  destruct (code_at (rand_src w) (rand_pos w)) as [c1|e] eqn:E;
    [|discriminate].
  destruct (code_at_ok _ _ _ E) as [_ [Hlen _]].
  destruct (db_First c1 (db w)) as [l|err] eqn:El.
  - destruct (Z.eqb_spec i 4) as [E4|E4]; [discriminate|].
    intro H. destruct Hin as [Hin|Hin]; [congruence|].
    exact (IH c1 _ c Hin H).
  - destruct (db_First_cases c1 (db w)) as [[l [El' _]]|[El' _]];
      [congruence|].
    rewrite El' in El. inversion El. subst err.
    cbn [fst]. intro H. inversion H. subst. rewrite El'. auto.
Qed.

Lemma handleCreate_code_custom (req : CreateReq) (w : World) :
  Custom req <> EmptyString ->
  Z.of_nat (String.length (Custom req)) <= MaxCustomLength ->
  isValidCode (Custom req) = true ->
  handleCreate_code req w
  = (match db_First (Custom req) (db w) with
     | Ok _ => inl custom_conflict
     | Err _ => inr (Custom req)
     end, w).
Proof.
  intros Hne Hlen Hvalid. unfold handleCreate_code.
  rewrite (string_eqb_false _ _ Hne). cbn [negb].
  destruct (Z.gtb_spec (Z.of_nat (String.length (Custom req))) MaxCustomLength);
    [lia|].
  rewrite Hvalid. cbn [negb]. unfold bind, First.
  destruct (db_First (Custom req) (db w)); reflexivity.
Qed.

Lemma handleCreate_code_generated (req : CreateReq) (w : World) :
  Custom req = EmptyString ->
  handleCreate_code req w = handleCreate_loop [0; 1; 2; 3; 4] "" w.
Proof. intro H. unfold handleCreate_code. rewrite H. reflexivity. Qed.

Definition is_error (r : Response) : Prop :=
  exists status msg, r = JSON status (H_error msg).

Lemma only_reads_refl (w : World) : only_reads w w.
Proof. unfold only_reads. repeat split. lia. Qed.

(** The choice of the code only reads the random source; a response it
    writes is an error; a code it chooses is non-empty and not in the
    table. *)
Lemma handleCreate_code_frame (req : CreateReq) (w : World) :
  only_reads w (snd (handleCreate_code req w)) /\
  (forall r, fst (handleCreate_code req w) = inl r -> is_error r) /\
  (forall c, fst (handleCreate_code req w) = inr c ->
             db_First c (db w) = Err ErrRecordNotFound /\ c <> EmptyString).
Proof.
  destruct (String.eqb_spec (Custom req) "") as [Hc|Hc].
  - rewrite (handleCreate_code_generated req w Hc).
    destruct (handleCreate_loop_frame [0; 1; 2; 3; 4] "" w) as [F [_ R]].
    split; [exact F|]. split.
    + intros r Hr. destruct (R r Hr) as [E|E]; subst r;
        eexists; eexists; reflexivity.
    + intros c Hcode.
      destruct (handleCreate_loop_code [0; 1; 2; 3; 4] "" w c
                  ltac:(simpl; tauto) Hcode) as [Hfree Hlen].
      split; [exact Hfree|]. intro E. subst c. discriminate.
  - unfold handleCreate_code. rewrite (string_eqb_false _ _ Hc). cbn [negb].
    destruct (Z.of_nat (String.length (Custom req)) >? MaxCustomLength).
    { cbn [ret fst snd]. split; [apply only_reads_refl|].
      split; [|discriminate].
      intros r E. inversion E. eexists; eexists; reflexivity. }
    destruct (isValidCode (Custom req)); cbn [negb].
    2:{ cbn [ret fst snd]. split; [apply only_reads_refl|].
        split; [|discriminate].
        intros r E. inversion E. eexists; eexists; reflexivity. }
    unfold bind, First.
    destruct (db_First_cases (Custom req) (db w)) as [[l [E _]]|[E _]];
      rewrite E; cbn [ret fst snd];
      (split; [apply only_reads_refl|]); split; try discriminate.
    + intros r Er. inversion Er. eexists; eexists; reflexivity.
    + intros c Ec. inversion Ec. subst c. auto.
Qed.

(** ** [handleCreate]: storing the link and answering *)

(** [req.URL] after [strings.TrimSpace]. *)
Definition create_url (req : CreateReq) : string :=
  strings.TrimSpace (URL_ req).

Definition url_accepted `{net_url} (req : CreateReq) : Prop :=
  create_url req <> EmptyString /\ isValidURL (create_url req) = true.

(** The configured short-link domain: [SHORT_DOMAIN], or the default when
    it is unset or empty. *)
Definition domain_of (w : World) : string :=
  if String.eqb (env w DomainEnv) "" then DefaultDomain else env w DomainEnv.

(** The row [handleCreate] inserts for [code] in world [w]. *)
Definition new_link (req : CreateReq) (code : string) (w : World)
  : ShortLink :=
  {| ID := next_id (db w);
     Code := code;
     TargetURL := create_url req;
     Clicks := 0;
     CreatedAt := clock w (clock_pos w);
     ExpiredAt :=
       if TTL req >? 0
       then {| Time := clock w (S (clock_pos w))
                       + wrap64 (TTL req * time_Second);
               Valid := true |}
       else NullTime_zero |}.

Definition create_response (req : CreateReq) (code : string) (w : World)
  : Response :=
  JSON StatusOK
    (Body_CreateResp
       {| resp_Code := code;
          resp_ShortURL :=
            (strings.TrimRight (domain_of w) "/" ++ "/" ++ code)%string;
          resp_URL := create_url req |}).

Definition db_insert (l : ShortLink) (d : DB) : DB :=
  {| rows := rows d ++ [l]; next_id := next_id d + 1 |}.

Lemma db_Create_fresh (link : ShortLink) (d : DB) :
  db_First (Code link) d = Err ErrRecordNotFound ->
  db_Create link d = (None, db_insert (with_ID link (next_id d)) d).
Proof.
  unfold db_First, db_Create. intro H.
  destruct (find (has_code (Code link)) (rows d)) as [l|] eqn:E;
    [discriminate|].
  destruct (existsb (has_code (Code link)) (rows d)) eqn:Ex; [|reflexivity].
  apply existsb_exists in Ex. destruct Ex as [x [Hin Hx]].
  rewrite (find_none _ _ E x Hin) in Hx. discriminate.
Qed.

Lemma db_First_insert (code : string) (l : ShortLink) (d : DB) :
  db_First code (db_insert l d)
  = match db_First code d with
    | Ok x => Ok x
    | Err e => if has_code code l then Ok l else Err e
    end.
Proof.
  unfold db_First, db_insert. cbn [rows].
  induction (rows d) as [|x xs IH]; cbn [find app].
  - destruct (has_code code l); reflexivity.
  - destruct (has_code code x); [reflexivity | exact IH].
Qed.

Lemma handleCreate_bad_body `{net_url} (e : error) (w : World) :
  handleCreate (Err e) w
  = (JSON StatusBadRequest (H_error "请求体解析失败"), w).
Proof. reflexivity. Qed.

Lemma handleCreate_bad_url `{net_url} (req : CreateReq) (w : World) :
  ~ url_accepted req ->
  is_error (fst (handleCreate (Ok req) w)) /\ snd (handleCreate (Ok req) w) = w.
Proof.
  intro Hbad. unfold handleCreate. fold (create_url req).
  destruct (String.eqb_spec (create_url req) "") as [E|E].
  - split; [eexists; eexists|]; reflexivity.
  - destruct (isValidURL (create_url req)) eqn:Ev.
    + exfalso. apply Hbad. split; assumption.
    + split; [eexists; eexists|]; reflexivity.
Qed.

Lemma handleCreate_early `{net_url} (req : CreateReq) (w : World)
      (r : Response) :
  url_accepted req ->
  fst (handleCreate_code req w) = inl r ->
  handleCreate (Ok req) w = (r, snd (handleCreate_code req w)).
Proof.
  intros [Hne Hvalid] Hcode. unfold handleCreate. fold (create_url req).
  rewrite (string_eqb_false _ _ Hne), Hvalid. cbn [negb].
  unfold bind at 1.
  destruct (handleCreate_code req w) as [c w1]. cbn [fst snd] in *.
  subst c. reflexivity.
Qed.

(** The world after the link for [code] is stored from world [w1]. *)
Definition after_create (req : CreateReq) (code : string) (w1 : World)
  : World :=
  {| db := db_insert (new_link req code w1) (db w1);
     env := env w1;
     clock := clock w1;
     clock_pos := if TTL req >? 0 then S (S (clock_pos w1))
                  else S (clock_pos w1);
     rand_src := rand_src w1;
     rand_pos := rand_pos w1 |}.

Lemma handleCreate_stores `{net_url} (req : CreateReq) (w : World)
      (code : string) :
  url_accepted req ->
  fst (handleCreate_code req w) = inr code ->
  handleCreate (Ok req) w
  = (create_response req code (snd (handleCreate_code req w)),
     after_create req code (snd (handleCreate_code req w))).
Proof.
  intros [Hne Hvalid] Hcode.
  destruct (handleCreate_code_frame req w) as [F [_ Hfree]].
  destruct (Hfree code Hcode) as [Hnf _].
  unfold handleCreate. fold (create_url req).
  rewrite (string_eqb_false _ _ Hne), Hvalid. cbn [negb].
  unfold bind at 1.
  destruct (handleCreate_code req w) as [c w1]. cbn [fst snd] in *.
  subst c. destruct F as [Fdb _]. rewrite <- Fdb in Hnf.
  unfold bind, time_Now, Create, os_Getenv, ret.
  destruct (TTL req >? 0) eqn:Ettl; cbn [db env clock clock_pos];
    (rewrite db_Create_fresh by exact Hnf);
    unfold create_response, after_create, new_link, domain_of, set_db,
           with_ID, time_Add;
    cbn [db env clock clock_pos rand_src rand_pos ID Code TargetURL Clicks
         CreatedAt ExpiredAt];
    rewrite Ettl; reflexivity.
Qed.

(** Every run of [handleCreate] either answers an error and leaves the
    table as it was, or chooses a code, stores its link and answers 200. *)
Lemma handleCreate_cases `{net_url} (body : result CreateReq) (w : World) :
  (is_error (fst (handleCreate body w)) /\
   db (snd (handleCreate body w)) = db w) \/
  (exists req code w1,
      body = Ok req /\ url_accepted req /\
      handleCreate_code req w = (inr code, w1) /\
      handleCreate body w
      = (create_response req code w1, after_create req code w1)).
Proof.
  destruct body as [req|e].
  2:{ left. split; [eexists; eexists|]; reflexivity. }
  destruct (String.eqb_spec (create_url req) "") as [E|E].
  { left. destruct (handleCreate_bad_url req w) as [A B].
    - intros [Hne _]. contradiction.
    - rewrite B. auto. }
  destruct (isValidURL (create_url req)) eqn:Ev.
  2:{ left. destruct (handleCreate_bad_url req w) as [A B].
      - intros [_ Hv]. congruence.
      - rewrite B. auto. }
  assert (Hacc : url_accepted req) by (split; assumption).
  destruct (handleCreate_code_frame req w) as [F [Herr _]].
  destruct (handleCreate_code req w) as [[r|code] w1] eqn:Ecode.
  - left. rewrite (handleCreate_early req w r Hacc) by (rewrite Ecode; reflexivity).
    rewrite Ecode. cbn [fst snd] in *. split; [apply Herr; reflexivity|].
    destruct F as [Fdb _]. exact Fdb.
  - right. exists req, code, w1. repeat split; try assumption; try (destruct Hacc; assumption).
    rewrite (handleCreate_stores req w code Hacc) by (rewrite Ecode; reflexivity).
    rewrite Ecode. reflexivity.
Qed.

(** ** [strings.TrimRight] *)

Lemma append_empty_r (s : string) : (s ++ "")%string = s.
Proof. induction s as [|c s IH]; simpl; congruence. Qed.

Lemma rev_onto_rev_onto (s : string) :
  forall a b : string,
    strings.rev_onto (strings.rev_onto s a) b
    = strings.rev_onto a (s ++ b)%string.
Proof.
  induction s as [|c s IH]; intros a b; [reflexivity|].
  cbn [strings.rev_onto]. rewrite IH. reflexivity.
Qed.

Lemma rev_rev (s : string) : strings.rev (strings.rev s) = s.
Proof.
  unfold strings.rev. rewrite rev_onto_rev_onto. cbn [strings.rev_onto].
  apply append_empty_r.
Qed.

Lemma rev_onto_append (s : string) :
  forall a : string, strings.rev_onto s a = (strings.rev s ++ a)%string.
Proof.
  unfold strings.rev.
  induction s as [|c s IH]; intro a; [reflexivity|].
  cbn [strings.rev_onto]. rewrite (IH (String c a)), (IH (String c "")).
  generalize (strings.rev_onto s "") as t.
  induction t as [|d t IHt]; simpl; congruence.
Qed.

(** A domain that does not end in a slash is left as it is. *)
Lemma TrimRight_no_slash (s : string) :
  (forall t : string, s <> (t ++ "/")%string) -> strings.TrimRight s "/" = s.
Proof.
  intro Hno. unfold strings.TrimRight.
  destruct (strings.rev s) as [|c r] eqn:E.
  - rewrite <- (rev_rev s), E. reflexivity.
  - cbn [strings.trim_left_bytes strings.mem].
    destruct (Ascii.eqb_spec c "/") as [Ec|Ec].
    + exfalso. apply (Hno (strings.rev r)).
      rewrite <- (rev_rev s), E. subst c.
      unfold strings.rev at 1. cbn [strings.rev_onto].
      apply rev_onto_append.
    + cbn [orb]. rewrite <- E. apply rev_rev.
Qed.

(** ** The constraints of the table are kept *)

Lemma db_wf_empty : db_wf DB_empty.
Proof. unfold db_wf, DB_empty. cbn. repeat split; constructor. Qed.

Lemma NoDup_snoc {A : Type} (l : list A) (x : A) :
  NoDup l -> ~ In x l -> NoDup (l ++ [x]).
Proof.
  induction l as [|a l IH]; intros Hnd Hni; simpl.
  - constructor; [tauto | constructor].
  - inversion Hnd; subst. constructor.
    + rewrite in_app_iff. simpl. intros [H'|[H'|[]]]; [tauto|].
      subst. apply Hni. left. reflexivity.
    + apply IH; [assumption|]. intro H'. apply Hni. right. exact H'.
Qed.

(** Deleting rows keeps a column of distinct values distinct. *)
Lemma filter_keeps_distinct {K : Type} (key : ShortLink -> K)
      (keep : ShortLink -> bool) (links : list ShortLink) :
  NoDup (map key links) -> NoDup (map key (filter keep links)).
Proof.
  induction links as [|x links IH]; cbn [filter map]; [auto|].
  intro Hnd. inversion Hnd as [|? ? Hfresh Hrest]; subst.
  destruct (keep x); [|exact (IH Hrest)].
  cbn [map]. constructor; [|exact (IH Hrest)].
  intro Hin. apply Hfresh.
  apply in_map_iff in Hin. destruct Hin as [y [Hy Hin]].
  apply filter_In in Hin. rewrite <- Hy. apply in_map. exact (proj1 Hin).
Qed.

Lemma db_wf_insert (l : ShortLink) (d : DB) :
  db_wf d -> ID l = next_id d -> ~ stored_code d (Code l) ->
  db_wf (db_insert l d).
Proof.
  intros [Hids [Hcodes [Hpos Hnext]]] Hid Hfree.
  unfold db_wf, db_insert. cbn [rows next_id].
  rewrite !map_app. cbn [map].
  pose proof (proj1 (Forall_forall _ _) Hpos) as Hall.
  repeat split.
  - apply NoDup_snoc; [assumption|]. intro Hin.
    apply in_map_iff in Hin. destruct Hin as [x [Hx Hin]].
    apply Hall in Hin. lia.
  - apply NoDup_snoc; [assumption|]. intro Hin.
    apply in_map_iff in Hin. destruct Hin as [x [Hx Hin]].
    apply Hfree. exists x. auto.
  - apply Forall_app. split.
    + apply Forall_forall. intros x Hx. apply Hall in Hx. lia.
    + constructor; [lia | constructor].
  - lia.
Qed.

Lemma db_wf_update (link : ShortLink) (n : Z) (d : DB) :
  db_wf d -> db_wf (db_UpdateColumn_clicks link n d).
Proof.
  intros Hwf. unfold db_UpdateColumn_clicks.
  destruct (ID link =? 0); [exact Hwf|].
  destruct Hwf as [Hids [Hcodes [Hpos Hnext]]].
  unfold db_wf. cbn [rows next_id].
  assert (Hid : forall x : ShortLink,
             ID (if ID x =? ID link then add_clicks n x else x) = ID x)
    by (intro x; destruct (ID x =? ID link); reflexivity).
  assert (Hc : forall x : ShortLink,
             Code (if ID x =? ID link then add_clicks n x else x) = Code x)
    by (intro x; destruct (ID x =? ID link); reflexivity).
  rewrite !map_map.
  rewrite (map_ext _ ID Hid), (map_ext _ Code Hc).
  repeat split; try assumption.
  apply Forall_forall. intros y Hy. apply in_map_iff in Hy.
  destruct Hy as [x [Hx Hin]]. subst y. rewrite Hid.
  exact (proj1 (Forall_forall _ _) Hpos x Hin).
Qed.

Lemma db_wf_delete (code : string) (d : DB) :
  db_wf d -> db_wf (snd (db_Delete code d)).
Proof.
  intros [Hids [Hcodes [Hpos Hnext]]].
  unfold db_Delete, db_wf. cbn [snd rows next_id].
  repeat split.
  - apply filter_keeps_distinct. exact Hids.
  - apply filter_keeps_distinct. exact Hcodes.
  - apply Forall_forall. intros x Hx. apply filter_In in Hx.
    destruct Hx as [Hx _]. exact (proj1 (Forall_forall _ _) Hpos x Hx).
  - exact Hnext.
Qed.

(** ** [handleInfo] and [handleDelete] *)

Lemma handleInfo_world (code : string) (w : World) :
  snd (handleInfo code w) = w.
Proof.
  unfold handleInfo, bind, First.
  destruct (db_First code (db w)) as [l|[]]; reflexivity.
Qed.

Lemma handleDelete_db (code : string) (w : World) :
  db (snd (handleDelete code w)) = snd (db_Delete code (db w)).
Proof.
  unfold handleDelete, bind, Delete, db_Delete. cbn [snd].
  destruct (Z.of_nat _ =? 0); reflexivity.
Qed.

(** ** Sample worlds *)

(** Stands for Go's [url.ParseRequestURI] on the one URL the sample
    requests submit, ["https://example.com"], which Go parses with scheme
    ["https"] and host ["example.com"]; no other string is given to it. *)
Definition sample_net_url : net_url :=
  {| ParseRequestURI := fun s =>
       if String.eqb s "https://example.com"
       then Ok {| Scheme := "https"; Host := "example.com"; Path := "" |}
       else Err ErrURLParse |}.

(** A link with code ["abc"] that expired at instant 10. *)
Definition link_abc : ShortLink :=
  {| ID := 1; Code := "abc"; TargetURL := "https://old.example";
     Clicks := 3; CreatedAt := 5;
     ExpiredAt := {| Time := 10; Valid := true |} |}.

(** A link whose code is the one six draws of 0 give; it expired at 10. *)
Definition link_000000 : ShortLink :=
  {| ID := 1; Code := "000000"; TargetURL := "https://old.example";
     Clicks := 0; CreatedAt := 5;
     ExpiredAt := {| Time := 10; Valid := true |} |}.

(** A world whose table holds [links], whose clock reads [now], [now + 1],
    ..., and whose random source yields [src]. *)
Definition sample_world (links : list ShortLink) (domain : string)
           (now : time_Time) (src : nat -> option Z) : World :=
  {| db := {| rows := links; next_id := Z.of_nat (List.length links) + 1 |};
     env := fun key => if String.eqb key DomainEnv then domain
                       else EmptyString;
     clock := fun n => now + Z.of_nat n;
     clock_pos := 0;
     rand_src := src;
     rand_pos := 0 |}.

Definition sample_req (custom : string) (ttl : Z) : CreateReq :=
  {| URL_ := " https://example.com "; Custom := custom; TTL := ttl |}.

(** Draws that give ["000000"], then ["111111"], and so on. *)
Definition rounds_src (n : nat) : option Z := Some (Z.of_nat (n / 6)).

Ltac sample_wf :=
  unfold db_wf; cbn; repeat split;
  repeat (constructor; cbn; try lia; try (intuition discriminate)).

(** ** [handleCreate] with a custom code *)

(** C1, as the code has it: for a create request with an accepted URL and
    a custom code of valid characters and at most 64 bytes, the answer is
    the conflict (409) exactly when some stored link has that code, be it
    active or expired, and then nothing is stored; when no stored link has
    the code, the create succeeds, answers the custom code verbatim and
    stores a link under it. *)
Theorem C1_custom_code_conflict `{net_url} (req : CreateReq) (w : World)
  (Hurl : url_accepted req)
  (Hcustom : Custom req <> EmptyString)
  (Hlen : Z.of_nat (String.length (Custom req)) <= 64)
  (Hchars : isValidCode (Custom req) = true) :
  (fst (handleCreate (Ok req) w)
   = JSON StatusConflict (H_error "自定义短码已存在")
   <-> stored_code (db w) (Custom req)) /\
  (stored_code (db w) (Custom req) ->
   db (snd (handleCreate (Ok req) w)) = db w) /\
  (~ stored_code (db w) (Custom req) ->
   (exists short_url,
       fst (handleCreate (Ok req) w)
       = JSON StatusOK
           (Body_CreateResp {| resp_Code := Custom req;
                               resp_ShortURL := short_url;
                               resp_URL := create_url req |})) /\
   rows (db (snd (handleCreate (Ok req) w)))
   = rows (db w) ++ [new_link req (Custom req) w] /\
   db_First (Custom req) (db (snd (handleCreate (Ok req) w)))
   = Ok (new_link req (Custom req) w)).
Proof.
  pose proof (handleCreate_code_custom req w Hcustom Hlen Hchars) as Hcode.
  destruct (db_First_cases (Custom req) (db w)) as [[l [E [Hin Hc]]]|[E Habs]];
    rewrite E in Hcode.
  - assert (Hst : stored_code (db w) (Custom req)) by (exists l; auto).
    rewrite (handleCreate_early req w custom_conflict Hurl)
      by (rewrite Hcode; reflexivity).
    rewrite Hcode. cbn [fst snd].
    split; [split; [intros _; exact Hst | reflexivity]|].
    split; [reflexivity | tauto].
  - rewrite (handleCreate_stores req w (Custom req) Hurl)
      by (rewrite Hcode; reflexivity).
    rewrite Hcode. cbn [fst snd].
    split; [split; [discriminate | tauto]|].
    split; [tauto|]. intros _.
    split; [eexists; reflexivity|].
    split; [reflexivity|].
    unfold after_create. cbn [db]. rewrite db_First_insert, E.
    unfold has_code, new_link. cbn [Code]. rewrite String.eqb_refl.
    reflexivity.
Qed.

Lemma C1_custom_code_conflict_witness :
  fst (@handleCreate sample_net_url (Ok (sample_req "abc" 0))
         (sample_world [link_abc] "" 20 rounds_src))
  = JSON StatusConflict (H_error "自定义短码已存在") /\
  db_First "abd"
    (db (snd (@handleCreate sample_net_url (Ok (sample_req "abd" 0))
                (sample_world [link_abc] "" 20 rounds_src))))
  = Ok (new_link (sample_req "abd" 0) "abd"
          (sample_world [link_abc] "" 20 rounds_src)).
Proof.
  split.
  - apply (@C1_custom_code_conflict sample_net_url (sample_req "abc" 0)
             (sample_world [link_abc] "" 20 rounds_src)).
    + split; [discriminate | reflexivity].
    + discriminate.
    + vm_compute. discriminate.
    + reflexivity.
    + exists link_abc. split; [left; reflexivity | reflexivity].
  - apply (@C1_custom_code_conflict sample_net_url (sample_req "abd" 0)
             (sample_world [link_abc] "" 20 rounds_src)).
    + split; [discriminate | reflexivity].
    + discriminate.
    + vm_compute. discriminate.
    + reflexivity.
    + intros [l [[Hl|[]] Hc]]. subst l. discriminate.
Defined.

(** C1 as the specification words it fails: the only stored link with code
    ["abc"] is expired, so no active link has that code, and the create
    with custom code ["abc"] is still answered with the conflict. *)
Lemma C1_counterexample_expired_code :
  let w := sample_world [link_abc] "" 20 rounds_src in
  let req := sample_req "abc" 0 in
  @url_accepted sample_net_url req /\
  isValidCode (Custom req) = true /\
  Z.of_nat (String.length (Custom req)) <= 64 /\
  (forall l, stored (db w) l -> Code l = Custom req ->
             expired_at (now_of w) l) /\
  ~ (exists l, stored (db w) l /\ Code l = Custom req /\
               active_at (now_of w) l) /\
  fst (@handleCreate sample_net_url (Ok req) w)
  = JSON StatusConflict (H_error "自定义短码已存在").
Proof.
  cbv zeta.
  assert (Hexp : forall l,
             stored (db (sample_world [link_abc] "" 20 rounds_src)) l ->
             expired_at (now_of (sample_world [link_abc] "" 20 rounds_src)) l).
  { intros l [Hl|[]]. subst l. split; [reflexivity | vm_compute; reflexivity]. }
  split; [split; [discriminate | reflexivity]|].
  split; [reflexivity|].
  split; [vm_compute; discriminate|].
  split; [intros l Hl _; exact (Hexp l Hl)|].
  split; [|reflexivity].
  intros [l [Hl [_ Hact]]]. exact (Hact (Hexp l Hl)).
Qed.

(** ** [handleCreate] with a generated code *)

(** C2, as the code has it: without a custom code, at most 5 codes of 6
    characters are generated (at most 30 calls of [rand.Int]);
    after each one the table is looked up for a stored link with that
    code, active or expired; the first code that no stored link has is
    accepted, answered and stored; when all 5 codes are taken, the answer
    is the generation conflict (500), nothing is stored and no further
    code is generated. *)
Theorem C2_generated_code_retry `{net_url} (req : CreateReq) (w : World)
  (Hurl : url_accepted req) (Hcustom : Custom req = EmptyString) :
  (rand_pos (snd (handleCreate (Ok req) w)) <= rand_pos w + 5 * 6)%nat /\
  (forall (k : nat) (c : string),
      (k < 5)%nat ->
      (forall j, (j < k)%nat ->
                 exists cj, attempt w j = Ok cj /\ stored_code (db w) cj) ->
      attempt w k = Ok c -> ~ stored_code (db w) c ->
      (exists short_url,
          fst (handleCreate (Ok req) w)
          = JSON StatusOK
              (Body_CreateResp {| resp_Code := c;
                                  resp_ShortURL := short_url;
                                  resp_URL := create_url req |})) /\
      rand_pos (snd (handleCreate (Ok req) w)) = (rand_pos w + 6 * (k + 1))%nat /\
      rows (db (snd (handleCreate (Ok req) w)))
      = rows (db w) ++ [new_link req c w] /\
      db_First c (db (snd (handleCreate (Ok req) w)))
      = Ok (new_link req c w)) /\
  ((forall j, (j < 5)%nat ->
              exists cj, attempt w j = Ok cj /\ stored_code (db w) cj) ->
   fst (handleCreate (Ok req) w)
   = JSON StatusInternalServerError (H_error "生成短码冲突，稍后重试") /\
   db (snd (handleCreate (Ok req) w)) = db w /\
   rand_pos (snd (handleCreate (Ok req) w)) = (rand_pos w + 5 * 6)%nat).
Proof.
  pose proof (handleCreate_code_generated req w Hcustom) as Hcode.
  split; [|split].
  - destruct (handleCreate_loop_frame [0; 1; 2; 3; 4] "" w) as [_ [Hbound _]].
    rewrite <- Hcode in Hbound. cbn [List.length] in Hbound.
    destruct (handleCreate_code req w) as [[r|code] w1] eqn:E.
    + rewrite (handleCreate_early req w r Hurl) by (rewrite E; reflexivity).
      rewrite E. cbn [snd] in *. lia.
    + rewrite (handleCreate_stores req w code Hurl)
        by (rewrite E; reflexivity).
      rewrite E. cbn [snd after_create rand_pos] in *. lia.
  - intros k c Hk Hcoll Hatt Hfree.
    assert (Hloop : handleCreate_code req w
                    = (inr c, set_rand_pos (rand_pos w + 6 * S k) w)).
    { rewrite Hcode. apply handleCreate_loop_accepts; try assumption.
      intros j Hj.
      do 4 (destruct j as [|j]; [cbn; lia|]). lia. }
    rewrite (handleCreate_stores req w c Hurl)
      by (rewrite Hloop; reflexivity).
    rewrite Hloop. cbn [fst snd].
    split; [eexists; reflexivity|].
    split; [cbn [rand_pos after_create set_rand_pos]; lia|].
    split; [reflexivity|].
    unfold after_create. cbn [db set_rand_pos].
    rewrite db_First_insert, (db_First_absent _ _ Hfree).
    unfold has_code, new_link. cbn [Code]. rewrite String.eqb_refl.
    reflexivity.
  - intro Hcoll.
    assert (Hloop : handleCreate_code req w
                    = (inl generation_conflict,
                       set_rand_pos (rand_pos w + 6 * 5) w)).
    { rewrite Hcode. apply (handleCreate_loop_exhausts 4).
      - cbn [List.length]. lia.
      - intros j Hj.
        do 4 (destruct j as [|j]; [cbn; lia|]). lia.
      - reflexivity.
      - intros j Hj. apply Hcoll. lia. }
    rewrite (handleCreate_early req w generation_conflict Hurl)
      by (rewrite Hloop; reflexivity).
    rewrite Hloop. cbn [fst snd]. repeat split.
Qed.

Lemma C2_generated_code_retry_witness :
  exists short_url,
    fst (@handleCreate sample_net_url (Ok (sample_req "" 0))
           (sample_world [link_000000] "" 20 rounds_src))
    = JSON StatusOK
        (Body_CreateResp {| resp_Code := "111111";
                            resp_ShortURL := short_url;
                            resp_URL := create_url (sample_req "" 0) |}).
Proof.
  assert (Hurl : @url_accepted sample_net_url (sample_req "" 0))
    by (split; [vm_compute; discriminate | vm_compute; reflexivity]).
  destruct (@C2_generated_code_retry sample_net_url (sample_req "" 0)
              (sample_world [link_000000] "" 20 rounds_src) Hurl eq_refl)
    as [_ [Haccept _]].
  destruct (Haccept 1%nat "111111"%string) as [Hresp _].
  - lia.
  - intros j Hj. assert (j = 0)%nat by lia. subst j.
    exists "000000"%string. split; [vm_compute; reflexivity|].
    exists link_000000. split; [left; reflexivity | reflexivity].
  - vm_compute. reflexivity.
  - intros [l [[Hl|[]] Hc]]. subst l. discriminate.
  - exact Hresp.
Defined.

(** C2 as the specification words it fails: the first generated code,
    ["000000"], matches no active link (the one stored link with that code
    is expired), and yet it is not accepted: the create answers the second
    code, ["111111"]. *)
Lemma C2_counterexample_expired_code_retried :
  let w := sample_world [link_000000] "" 20 rounds_src in
  let req := sample_req "" 0 in
  @url_accepted sample_net_url req /\
  Custom req = EmptyString /\
  attempt w 0 = Ok "000000"%string /\
  ~ (exists l, stored (db w) l /\ Code l = "000000"%string /\
               active_at (now_of w) l) /\
  fst (@handleCreate sample_net_url (Ok req) w)
  = JSON StatusOK
      (Body_CreateResp {| resp_Code := "111111";
                          resp_ShortURL := "http://localhost:8080/111111";
                          resp_URL := "https://example.com" |}).
Proof.
  cbv zeta.
  split; [split; [discriminate | reflexivity]|].
  split; [reflexivity|].
  split; [reflexivity|].
  split; [|reflexivity].
  intros [l [[Hl|[]] [_ Hact]]]. subst l. apply Hact.
  split; [reflexivity | vm_compute; reflexivity].
Qed.

(** ** The answer of a successful create *)

Lemma handleCreate_ok_inv `{net_url} (body : result CreateReq) (w : World)
      (r : CreateResp) :
  fst (handleCreate body w) = JSON StatusOK (Body_CreateResp r) ->
  exists req code w1,
    body = Ok req /\ url_accepted req /\
    handleCreate_code req w = (inr code, w1) /\
    only_reads w w1 /\ code <> EmptyString /\
    db_First code (db w) = Err ErrRecordNotFound /\
    handleCreate body w
    = (create_response req code w1, after_create req code w1) /\
    r = {| resp_Code := code;
           resp_ShortURL :=
             (strings.TrimRight (domain_of w) "/" ++ "/" ++ code)%string;
           resp_URL := create_url req |}.
Proof.
  intro Hok.
  destruct (handleCreate_cases body w)
    as [[[st [msg E]] _]|[req [code [w1 [Hb [Hacc [Hcode Hrun]]]]]]].
  - rewrite E in Hok. discriminate.
  - exists req, code, w1.
    destruct (handleCreate_code_frame req w) as [F [_ Hfree]].
    rewrite Hcode in F, Hfree. cbn [fst snd] in F, Hfree.
    destruct (Hfree code eq_refl) as [Hnf Hne].
    repeat split; try assumption; try (destruct Hacc; assumption);
      try (destruct F as [? [? [? [? [? ?]]]]]; assumption).
    rewrite Hrun in Hok. cbn [fst] in Hok. unfold create_response in Hok.
    inversion Hok. unfold domain_of.
    destruct F as [_ [Fenv _]]. rewrite Fenv. reflexivity.
Qed.

(** C5, as the code has it: a successful create answers the trimmed URL of
    the request, and a short URL made of the configured domain (the
    default ["http://localhost:8080"] when none is configured) with its
    trailing slashes removed, a slash, and the code; for a domain that does
    not end in a slash this is the domain, a slash and the code. *)
Theorem C5_create_response_fields `{net_url} (body : result CreateReq)
  (w : World) (r : CreateResp)
  (Hok : fst (handleCreate body w) = JSON StatusOK (Body_CreateResp r)) :
  exists req,
    body = Ok req /\
    resp_URL r = strings.TrimSpace (URL_ req) /\
    resp_ShortURL r
    = (strings.TrimRight (domain_of w) "/" ++ "/" ++ resp_Code r)%string /\
    ((forall t : string, domain_of w <> (t ++ "/")%string) ->
     resp_ShortURL r = (domain_of w ++ "/" ++ resp_Code r)%string) /\
    (env w DomainEnv = EmptyString ->
     resp_ShortURL r = ("http://localhost:8080" ++ "/" ++ resp_Code r)%string).
Proof.
  destruct (handleCreate_ok_inv body w r Hok)
    as [req [code [w1 [Hb [_ [_ [_ [_ [_ [_ Hr]]]]]]]]]].
  exists req. subst r. cbn [resp_Code resp_ShortURL resp_URL].
  split; [exact Hb|]. split; [reflexivity|]. split; [reflexivity|]. split.
  - intro Hno. rewrite (TrimRight_no_slash _ Hno). reflexivity.
  - intro Henv. unfold domain_of. rewrite Henv. reflexivity.
Qed.

Lemma C5_create_response_fields_witness :
  exists req,
    Ok (sample_req "go123" 0) = Ok req /\
    "https://example.com"%string = strings.TrimSpace (URL_ req) /\
    "https://s.example.com/go123"%string
    = (strings.TrimRight
         (domain_of (sample_world [] "https://s.example.com/" 20 rounds_src))
         "/" ++ "/" ++ "go123")%string /\
    ((forall t : string,
         domain_of (sample_world [] "https://s.example.com/" 20 rounds_src)
         <> (t ++ "/")%string) ->
     "https://s.example.com/go123"%string
     = (domain_of (sample_world [] "https://s.example.com/" 20 rounds_src)
        ++ "/" ++ "go123")%string) /\
    (env (sample_world [] "https://s.example.com/" 20 rounds_src) DomainEnv
     = EmptyString ->
     "https://s.example.com/go123"%string
     = ("http://localhost:8080" ++ "/" ++ "go123")%string).
Proof.
  apply (@C5_create_response_fields sample_net_url
           (Ok (sample_req "go123" 0))
           (sample_world [] "https://s.example.com/" 20 rounds_src)
           {| resp_Code := "go123";
              resp_ShortURL := "https://s.example.com/go123";
              resp_URL := "https://example.com" |}).
  vm_compute. reflexivity.
Defined.

(** C5 as the specification words it fails: with the configured domain
    ["https://s.example.com/"], the short URL of a successful create is not
    the configured domain, a slash and the code. *)
Lemma C5_counterexample_trailing_slash :
  let w := sample_world [] "https://s.example.com/" 20 rounds_src in
  let req := sample_req "go123" 0 in
  env w DomainEnv = "https://s.example.com/"%string /\
  fst (@handleCreate sample_net_url (Ok req) w)
  = JSON StatusOK
      (Body_CreateResp {| resp_Code := "go123";
                          resp_ShortURL := "https://s.example.com/go123";
                          resp_URL := "https://example.com" |}) /\
  "https://s.example.com/go123"%string
  <> (env w DomainEnv ++ "/" ++ "go123")%string.
Proof.
  cbv zeta. split; [reflexivity|].
  split; [vm_compute; reflexivity | vm_compute; discriminate].
Qed.

(** ** The expiry of a created link *)

Definition without_ttl (req : CreateReq) : CreateReq :=
  {| URL_ := URL_ req; Custom := Custom req; TTL := 0 |}.

Lemma handleCreate_ttl_ignored `{net_url} (req : CreateReq) (w : World) :
  TTL req <= 0 ->
  handleCreate (Ok req) w = handleCreate (Ok (without_ttl req)) w.
Proof.
  intro Httl. unfold handleCreate, handleCreate_code, without_ttl.
  cbn [URL_ Custom TTL].
  destruct (Z.gtb_spec (TTL req) 0) as [Hgt|_]; [lia|].
  reflexivity.
Qed.

(** C10: a create request whose [ttl_seconds] is zero or negative is
    handled as the same request without a TTL; when it succeeds, the
    stored link has no expiry, and a redirect of its code is answered with
    the redirect whatever the clock reads.  The expiry of a stored link is
    set exactly when [ttl_seconds > 0]. *)
Theorem C10_nonpositive_ttl_means_no_expiry `{net_url} (req : CreateReq)
  (w : World) :
  (TTL req <= 0 ->
   handleCreate (Ok req) w = handleCreate (Ok (without_ttl req)) w) /\
  (forall r : CreateResp,
      fst (handleCreate (Ok req) w) = JSON StatusOK (Body_CreateResp r) ->
      exists l,
        db_First (resp_Code r) (db (snd (handleCreate (Ok req) w))) = Ok l /\
        TargetURL l = create_url req /\
        Valid (ExpiredAt l) = (0 <? TTL req) /\
        (TTL req <= 0 ->
         ExpiredAt l = {| Time := 0; Valid := false |} /\
         forall w2 : World,
           db w2 = db (snd (handleCreate (Ok req) w)) ->
           fst (handleRedirect (resp_Code r) w2)
           = Redirect StatusFound (TargetURL l))).
Proof.
  split; [exact (handleCreate_ttl_ignored req w)|].
  intros r Hok.
  destruct (handleCreate_ok_inv (Ok req) w r Hok)
    as [req' [code [w1 [Hb [_ [_ [F [Hne [Hnf [Hrun Hr]]]]]]]]]].
  inversion Hb. subst req'. clear Hb.
  rewrite Hrun. cbn [snd]. subst r. cbn [resp_Code].
  exists (new_link req code w1).
  assert (Hfound : db_First code (db (after_create req code w1))
                   = Ok (new_link req code w1)).
  { unfold after_create. cbn [db]. rewrite db_First_insert.
    destruct F as [Fdb _]. rewrite Fdb, Hnf.
    unfold has_code, new_link. cbn [Code]. rewrite String.eqb_refl.
    reflexivity. }
  split; [exact Hfound|]. split; [reflexivity|].
  unfold new_link. cbn [ExpiredAt TargetURL].
  rewrite Z.gtb_ltb.
  destruct (Z.ltb_spec 0 (TTL req)) as [Hpos|Hnon].
  - split; [reflexivity | lia].
  - split; [reflexivity|]. intros _. split; [reflexivity|].
    intros w2 Hdb.
    assert (Hf2 : db_First code (db w2) = Ok (new_link req code w1))
      by (rewrite Hdb; exact Hfound).
    rewrite (handleRedirect_found code w2 _ Hne Hf2).
    unfold new_link. cbn [ExpiredAt TargetURL].
    destruct (Z.ltb_spec 0 (TTL req)); [lia|].
    rewrite Z.gtb_ltb. destruct (Z.ltb_spec 0 (TTL req)); [lia|].
    reflexivity.
Qed.

(** ** Clicks *)

(** What a request does to the rows of the table: each row stored after it
    was stored before, or is the row a create inserted (with no clicks), or
    is the row of the redirected code with one more click. *)
Inductive row_after `{net_url} (r : Request) (w : World) (resp : Response)
          (l' : ShortLink) : Prop :=
| row_kept :
    stored (db w) l' -> row_after r w resp l'
| row_created (body : result CreateReq) :
    r = POST_shorten body ->
    Clicks l' = 0 ->
    (forall l, stored (db w) l -> ID l <> ID l') ->
    row_after r w resp l'
| row_clicked (l : ShortLink) :
    stored (db w) l ->
    l' = add_clicks 1 l ->
    r = GET_code (Code l) ->
    resp = Redirect StatusFound (TargetURL l) ->
    active_at (now_of w) l ->
    row_after r w resp l'.

Lemma handleRedirect_rows (code : string) (w : World) (l' : ShortLink) :
  db_wf (db w) ->
  stored (db (snd (handleRedirect code w))) l' ->
  stored (db w) l' \/
  exists l, stored (db w) l /\ l' = add_clicks 1 l /\ Code l = code /\
            fst (handleRedirect code w) = Redirect StatusFound (TargetURL l) /\
            active_at (now_of w) l.
Proof.
  intros Hwf.
  destruct (String.eqb_spec code "") as [Hc|Hc].
  { subst code. cbn. auto. }
  destruct (db_First_cases code (db w)) as [[l [E [Hin Hcode]]]|[_ Habs]].
  2:{ rewrite (handleRedirect_absent code w Hc Habs). cbn [snd]. auto. }
  rewrite (handleRedirect_found code w l Hc E).
  assert (Hclick : stored (db_UpdateColumn_clicks l 1 (db w)) l' ->
                   active_at (now_of w) l ->
                   stored (db w) l' \/
                   exists l0, stored (db w) l0 /\ l' = add_clicks 1 l0 /\
                              Code l0 = code /\
                              Redirect StatusFound (TargetURL l)
                              = Redirect StatusFound (TargetURL l0) /\
                              active_at (now_of w) l0).
  { intros Hst Hact.
    destruct (db_update_stored l 1 (db w) l' Hwf Hin Hst) as [[Hk _]|Hb];
      [left; exact Hk|].
    right. exists l. auto. }
  destruct (Valid (ExpiredAt l)) eqn:Ev.
  - destruct (Z.ltb_spec (Time (ExpiredAt l)) (now_of w)) as [Hlt|Hge];
      cbn [fst snd].
    + unfold tick, time_Now. cbn [snd db]. auto.
    + unfold tick, time_Now, set_db. cbn [snd db]. intro Hst.
      apply (Hclick Hst). intros [_ Hpast]. lia.
  - cbn [fst snd]. unfold set_db. cbn [db]. intro Hst.
    apply (Hclick Hst). intros [Hv _]. congruence.
Qed.

Lemma serve_rows `{net_url} (r : Request) (w : World) (l' : ShortLink) :
  db_wf (db w) ->
  stored (db (snd (serve r w))) l' ->
  row_after r w (fst (serve r w)) l'.
Proof.
  intros Hwf Hst. destruct r as [body|code|code|code]; cbn [serve] in *.
  - destruct (handleCreate_cases body w)
      as [[_ Hdb]|[req [code [w1 [Hb [Hacc [Hcode Hrun]]]]]]].
    + apply row_kept. rewrite <- Hdb. exact Hst.
    + destruct (handleCreate_code_frame req w) as [[Fdb _] _].
      rewrite Hcode in Fdb. cbn [snd] in Fdb.
      rewrite Hrun in Hst. cbn [snd after_create db] in Hst.
      unfold stored, db_insert in Hst. cbn [rows] in Hst.
      apply in_app_iff in Hst. destruct Hst as [Hold|[Hnew|[]]].
      * apply row_kept. unfold stored. rewrite <- Fdb. exact Hold.
      * apply (row_created _ _ _ _ body); [reflexivity | | ].
        -- subst l'. reflexivity.
        -- intros l Hl. subst l'. unfold new_link. cbn [ID]. rewrite Fdb.
           destruct Hwf as [_ [_ [Hpos _]]].
           pose proof (proj1 (Forall_forall _ _) Hpos l Hl) as Hbound.
           cbv beta in Hbound. lia.
  - destruct (handleRedirect_rows code w l' Hwf Hst)
      as [Hk|[l [Hin [Hl' [Hc [Hresp Hact]]]]]].
    + apply row_kept. exact Hk.
    + apply (row_clicked _ _ _ _ l); try assumption. congruence.
  - rewrite handleInfo_world in Hst. apply row_kept. exact Hst.
  - rewrite handleDelete_db in Hst. unfold db_Delete, stored in Hst.
    cbn [snd rows] in Hst. apply filter_In in Hst.
    apply row_kept. exact (proj1 Hst).
Qed.

Lemma serve_wf `{net_url} (r : Request) (w : World) :
  db_wf (db w) -> db_wf (db (snd (serve r w))).
Proof.
  intros Hwf. destruct r as [body|code|code|code]; cbn [serve].
  - destruct (handleCreate_cases body w)
      as [[_ Hdb]|[req [code [w1 [Hb [Hacc [Hcode Hrun]]]]]]].
    + rewrite Hdb. exact Hwf.
    + destruct (handleCreate_code_frame req w) as [[Fdb _] [_ Hfree]].
      rewrite Hcode in Fdb, Hfree. cbn [fst snd] in Fdb, Hfree.
      destruct (Hfree code eq_refl) as [Hnf _].
      rewrite Hrun. cbn [snd after_create db].
      apply db_wf_insert.
      * rewrite Fdb. exact Hwf.
      * reflexivity.
      * cbn [new_link Code]. rewrite Fdb.
        destruct (db_First_cases code (db w)) as [[l [E _]]|[_ Habs]];
          [congruence | exact Habs].
  - destruct (String.eqb_spec code "") as [Hc|Hc].
    { subst code. cbn. exact Hwf. }
    destruct (db_First_cases code (db w)) as [[l [E _]]|[_ Habs]].
    2:{ rewrite (handleRedirect_absent code w Hc Habs). exact Hwf. }
    rewrite (handleRedirect_found code w l Hc E).
    destruct (Valid (ExpiredAt l));
      [destruct (Time (ExpiredAt l) <? now_of w)|];
      cbn [snd]; unfold tick, time_Now, set_db; cbn [snd db];
      try exact Hwf; apply db_wf_update; exact Hwf.
  - rewrite handleInfo_world. exact Hwf.
  - rewrite handleDelete_db. apply db_wf_delete. exact Hwf.
Qed.

Lemma handleRedirect_clicks (w : World) (l : ShortLink) :
  db_wf (db w) -> Code l <> EmptyString -> stored (db w) l ->
  active_at (now_of w) l ->
  fst (handleRedirect (Code l) w) = Redirect StatusFound (TargetURL l) /\
  stored (db (snd (handleRedirect (Code l) w))) (add_clicks 1 l) /\
  (forall x, stored (db w) x -> x <> l ->
             stored (db (snd (handleRedirect (Code l) w))) x).
Proof.
  intros Hwf Hne Hin Hact.
  rewrite (handleRedirect_found (Code l) w l Hne (db_First_wf _ _ Hwf Hin)).
  assert (Hkeep : forall x, stored (db w) x -> x <> l ->
                            stored (db_UpdateColumn_clicks l 1 (db w)) x).
  { intros x Hx Hxl. apply db_update_keeps; [exact Hx|].
    intro Eid. apply Hxl. destruct Hwf as [Hids _].
    exact (NoDup_map_eq ID _ _ _ Hids Hx Hin Eid). }
  pose proof (db_update_bumps l 1 (db w) Hwf Hin) as Hbump.
  destruct (Valid (ExpiredAt l)) eqn:Ev.
  - destruct (Z.ltb_spec (Time (ExpiredAt l)) (now_of w)) as [Hlt|Hge].
    + exfalso. apply Hact. split; assumption.
    + cbn [fst snd]. unfold tick, time_Now, set_db. cbn [snd db]. auto.
  - cbn [fst snd]. unfold set_db. cbn [db]. auto.
Qed.

(** C4: a link is created with 0 clicks, and the clicks of a stored link
    only grow.  After any request, a stored row is a row that was stored
    before, unchanged, or the row a create inserted, with 0 clicks, or the
    row of a redirected, unexpired code with exactly one more click, and
    then the answer is the 302 redirect to its target URL.  A redirect of
    a stored, unexpired code does add that click and leaves the other rows
    alone.  So create, info, delete and failed redirects change the clicks
    of no stored link.  The constraints of the table hold again after the
    request. *)
Theorem C4_clicks_only_grow `{net_url} (r : Request) (w : World)
  (Hwf : db_wf (db w)) :
  (forall l', stored (db (snd (serve r w))) l' ->
              row_after r w (fst (serve r w)) l') /\
  (forall l l', stored (db w) l -> stored (db (snd (serve r w))) l' ->
                ID l = ID l' ->
                Code l' = Code l /\ TargetURL l' = TargetURL l /\
                (Clicks l' = Clicks l \/
                 (Clicks l' = Clicks l + 1 /\ r = GET_code (Code l) /\
                  fst (serve r w) = Redirect StatusFound (TargetURL l) /\
                  active_at (now_of w) l))) /\
  (forall l, r = GET_code (Code l) -> Code l <> EmptyString ->
             stored (db w) l -> active_at (now_of w) l ->
             fst (serve r w) = Redirect StatusFound (TargetURL l) /\
             stored (db (snd (serve r w))) (add_clicks 1 l) /\
             Clicks (add_clicks 1 l) = Clicks l + 1 /\
             (forall x, stored (db w) x -> x <> l ->
                        stored (db (snd (serve r w))) x)) /\
  db_wf (db (snd (serve r w))).
Proof.
  split; [|split; [|split]].
  - intros l' Hst. exact (serve_rows r w l' Hwf Hst).
  - intros l l' Hl Hl' Hid.
    destruct (serve_rows r w l' Hwf Hl') as [Hk|body _ _ Hfresh|l0 H0 E Hr Hresp Hact].
    + destruct Hwf as [Hids _].
      assert (l = l') by exact (NoDup_map_eq ID _ _ _ Hids Hl Hk Hid).
      subst l'. auto.
    + exfalso. exact (Hfresh l Hl Hid).
    + assert (l0 = l).
      { destruct Hwf as [Hids _].
        apply (NoDup_map_eq ID _ _ _ Hids H0 Hl). subst l'.
        cbn [add_clicks ID] in Hid. congruence. }
      subst l0 l'. cbn [add_clicks Code TargetURL Clicks].
      split; [reflexivity|]. split; [reflexivity|]. right. auto.
  - intros l Hr Hne Hin Hact. subst r. cbn [serve].
    destruct (handleRedirect_clicks w l Hwf Hne Hin Hact) as [A [B C]].
    split; [exact A|]. split; [exact B|]. split; [reflexivity | exact C].
  - exact (serve_wf r w Hwf).
Qed.

(** ** The theorems at sample worlds *)

(** A random source whose fourth read fails. *)
Definition failing_src (n : nat) : option Z :=
  if Nat.eqb n 3 then None else Some (Z.of_nat n).

Lemma C8_genRandomCode_length_alphabet_witness :
  (exists s,
      fst (genRandomCode 0 (sample_world [] "" 20 rounds_src)) = Ok s /\
      String.length s = 6%nat /\ all_chars in_alphabet s) /\
  fst (genRandomCode 8 (sample_world [] "" 20 failing_src)) = Err ErrRandRead.
Proof.
  split.
  - apply (C8_genRandomCode_length_alphabet 0
             (sample_world [] "" 20 rounds_src)).
    intros j _. discriminate.
  - apply (C8_genRandomCode_length_alphabet 8
             (sample_world [] "" 20 failing_src)) with (j := 3%nat).
    + vm_compute. lia.
    + reflexivity.
Defined.

Lemma C3_redirect_not_found_or_gone_witness :
  handleRedirect "zzz" (sample_world [link_abc] "" 20 rounds_src)
  = (JSON StatusNotFound (H_error "短链不存在"),
     sample_world [link_abc] "" 20 rounds_src) /\
  fst (handleRedirect "abc" (sample_world [link_abc] "" 20 rounds_src))
  = JSON StatusGone (H_error "短链已过期") /\
  db (snd (handleRedirect "abc" (sample_world [link_abc] "" 20 rounds_src)))
  = db (sample_world [link_abc] "" 20 rounds_src).
Proof.
  assert (Hwf : db_wf (db (sample_world [link_abc] "" 20 rounds_src)))
    by sample_wf.
  split.
  - apply (C3_redirect_not_found_or_gone "zzz"
             (sample_world [link_abc] "" 20 rounds_src)
             ltac:(discriminate) Hwf).
    intros [l [[Hl|[]] Hc]]. subst l. discriminate.
  - destruct (C3_redirect_not_found_or_gone "abc"
                (sample_world [link_abc] "" 20 rounds_src)
                ltac:(discriminate) Hwf) as [_ Hgone].
    destruct (Hgone link_abc) as [A [B _]].
    + left. reflexivity.
    + reflexivity.
    + split; [reflexivity | vm_compute; reflexivity].
    + split; [exact A | exact B].
Defined.

Lemma C9_expiry_is_strict_witness :
  fst (handleRedirect "abc" (sample_world [link_abc] "" 10 rounds_src))
  = Redirect StatusFound "https://old.example" /\
  db_First "abc"
    (db (snd (handleRedirect "abc"
                (sample_world [link_abc] "" 10 rounds_src))))
  = Ok (add_clicks 1 link_abc).
Proof.
  assert (Hwf : db_wf (db (sample_world [link_abc] "" 10 rounds_src)))
    by sample_wf.
  destruct (C9_expiry_is_strict "abc"
              (sample_world [link_abc] "" 10 rounds_src) link_abc
              ltac:(discriminate) Hwf (or_introl eq_refl) eq_refl)
    as [_ Hnow].
  destruct (Hnow eq_refl eq_refl) as [A [B _]].
  split; [exact A | exact B].
Defined.

Lemma C4_clicks_only_grow_witness :
  fst (@serve sample_net_url (GET_code "abc")
         (sample_world [link_abc] "" 10 rounds_src))
  = Redirect StatusFound "https://old.example" /\
  stored (db (snd (@serve sample_net_url (GET_code "abc")
                     (sample_world [link_abc] "" 10 rounds_src))))
         (add_clicks 1 link_abc) /\
  db_wf (db (snd (@serve sample_net_url (GET_code "abc")
                    (sample_world [link_abc] "" 10 rounds_src)))).
Proof.
  assert (Hwf : db_wf (db (sample_world [link_abc] "" 10 rounds_src)))
    by sample_wf.
  destruct (@C4_clicks_only_grow sample_net_url (GET_code "abc")
              (sample_world [link_abc] "" 10 rounds_src) Hwf)
    as [_ [_ [Hclick Hwf']]].
  destruct (Hclick link_abc) as [A [B _]].
  - reflexivity.
  - discriminate.
  - left. reflexivity.
  - intros [_ Hpast]. vm_compute in Hpast. discriminate.
  - split; [exact A|]. split; [exact B | exact Hwf'].
Defined.

Lemma C10_nonpositive_ttl_means_no_expiry_witness :
  exists l,
    db_First "go123"
      (db (snd (@handleCreate sample_net_url (Ok (sample_req "go123" (-5)))
                  (sample_world [] "" 20 rounds_src))))
    = Ok l /\
    ExpiredAt l = {| Time := 0; Valid := false |} /\
    fst (handleRedirect "go123"
           (snd (@handleCreate sample_net_url (Ok (sample_req "go123" (-5)))
                   (sample_world [] "" 20 rounds_src))))
    = Redirect StatusFound (TargetURL l).
Proof.
  destruct (@C10_nonpositive_ttl_means_no_expiry sample_net_url
              (sample_req "go123" (-5))
              (sample_world [] "" 20 rounds_src)) as [_ Hstored].
  destruct (Hstored {| resp_Code := "go123";
                       resp_ShortURL := "http://localhost:8080/go123";
                       resp_URL := "https://example.com" |})
    as [l [A [B [_ D]]]].
  - vm_compute. reflexivity.
  - exists l. cbn [resp_Code] in A, D. split; [exact A|].
    destruct D as [D1 D2]; [vm_compute; discriminate|].
    split; [exact D1 | exact (D2 _ eq_refl)].
Defined.

(** ** Runs of several requests *)

Fixpoint run `{net_url} (requests : list Request) : M (list Response) :=
  match requests with
  | [] => ret []
  | r :: requests' =>
      resp <- serve r ;;
      resps <- run requests' ;;
      ret (resp :: resps)
  end.

Lemma run_wf `{net_url} (requests : list Request) :
  forall w : World, db_wf (db w) -> db_wf (db (snd (run requests w))).
Proof.
  induction requests as [|r requests IH]; intros w Hwf; [exact Hwf|].
  cbn [run]. unfold bind.
  pose proof (serve_wf r w Hwf) as Hstep.
  destruct (serve r w) as [resp w1]. cbn [snd] in Hstep.
  pose proof (IH w1 Hstep) as Hrest.
  destruct (run requests w1) as [resps w2]. exact Hrest.
Qed.

(** A clock that advances two seconds between readings. *)
Definition slow_world : World :=
  {| db := DB_empty;
     env := fun _ => EmptyString;
     clock := fun n => 20 + Z.of_nat n * (2 * time_Second);
     clock_pos := 0;
     rand_src := rounds_src;
     rand_pos := 0 |}.

(** A second create with the same custom code is answered the conflict. *)
Example run_custom_twice :
  fst (@run sample_net_url
         [ POST_shorten (Ok (sample_req "abc" 0));
           POST_shorten (Ok (sample_req "abc" 0)) ]
         slow_world)
  = [ JSON StatusOK
        (Body_CreateResp {| resp_Code := "abc";
                            resp_ShortURL := "http://localhost:8080/abc";
                            resp_URL := "https://example.com" |});
      JSON StatusConflict (H_error "自定义短码已存在") ].
Proof. vm_compute. reflexivity. Qed.

(** A link created with a TTL of one second is gone two seconds later, and
    info still shows it, with no click. *)
Example run_ttl_then_redirect :
  fst (@run sample_net_url
         [ POST_shorten (Ok (sample_req "abc" 1));
           GET_code "abc";
           GET_info "abc" ]
         slow_world)
  = [ JSON StatusOK
        (Body_CreateResp {| resp_Code := "abc";
                            resp_ShortURL := "http://localhost:8080/abc";
                            resp_URL := "https://example.com" |});
      JSON StatusGone (H_error "短链已过期");
      JSON StatusOK
        (H_info "abc" "https://example.com" 0 20
                {| Time := 3000000020; Valid := true |}) ].
Proof. vm_compute. reflexivity. Qed.

(** Two redirects add two clicks; after a delete the code is unknown. *)
Example run_redirects_then_delete :
  fst (@run sample_net_url
         [ POST_shorten (Ok (sample_req "" 0));
           GET_code "000000";
           GET_code "000000";
           GET_info "000000";
           DELETE_code "000000";
           GET_info "000000";
           GET_code "000000";
           DELETE_code "000000" ]
         slow_world)
  = [ JSON StatusOK
        (Body_CreateResp {| resp_Code := "000000";
                            resp_ShortURL := "http://localhost:8080/000000";
                            resp_URL := "https://example.com" |});
      Redirect StatusFound "https://example.com";
      Redirect StatusFound "https://example.com";
      JSON StatusOK (H_info "000000" "https://example.com" 2 20
                            {| Time := 0; Valid := false |});
      JSON StatusOK H_ok;
      JSON StatusNotFound (H_error "短链不存在");
      JSON StatusNotFound (H_error "短链不存在");
      JSON StatusNotFound (H_error "短链不存在") ].
Proof. vm_compute. reflexivity. Qed.

(** * Further properties of the code *)

(** ** The token check *)

Lemma tokenAuth_passes (token authHeader : string) :
  tokenAuth token authHeader = None
  <-> authHeader = ("Bearer " ++ token)%string.
Proof.
  unfold tokenAuth, strings.TrimPrefix. split.
  - destruct (strings.HasPrefix authHeader "Bearer ") eqn:Hp;
      cbn [negb]; [|discriminate].
    destruct (String.eqb_spec
                (strings.drop (String.length "Bearer ") authHeader) token)
      as [E|E]; cbn [negb]; [|discriminate].
    intros _. rewrite <- E. exact (HasPrefix_split "Bearer " authHeader Hp).
  - intro E. subst authHeader. rewrite HasPrefix_append. cbn [negb].
    rewrite drop_append, String.eqb_refl. reflexivity.
Qed.

Lemma tokenAuth_refuses (token authHeader : string) :
  tokenAuth token authHeader <> None ->
  exists msg,
    tokenAuth token authHeader
    = Some (JSON StatusUnauthorized (H_error msg)).
Proof.
  unfold tokenAuth.
  destruct (strings.HasPrefix authHeader "Bearer "); cbn [negb];
    [|eexists; reflexivity].
  destruct (String.eqb _ token); cbn [negb];
    [congruence | eexists; reflexivity].
Qed.

(** X1: [tokenAuthMiddleware] ends the start-up when [API_TOKEN] is unset
    or empty.  Otherwise the handler it returns lets a request pass exactly
    when its [Authorization] header is ["Bearer "] followed by the token,
    byte for byte; every other header, the absent one too, is answered 401
    and the chain is aborted. *)
Theorem X1_token_middleware (w : World) :
  snd (tokenAuthMiddleware w) = w /\
  (env w "API_TOKEN" = EmptyString ->
   exists msg, fst (tokenAuthMiddleware w) = Fatal msg) /\
  (env w "API_TOKEN" <> EmptyString ->
   exists auth,
     fst (tokenAuthMiddleware w) = Started auth /\
     forall authHeader : string,
       (auth authHeader = None
        <-> authHeader = ("Bearer " ++ env w "API_TOKEN")%string) /\
       (authHeader <> ("Bearer " ++ env w "API_TOKEN")%string ->
        exists msg,
          auth authHeader = Some (JSON StatusUnauthorized (H_error msg)))).
Proof.
  unfold tokenAuthMiddleware, bind, os_Getenv.
  destruct (String.eqb_spec (env w "API_TOKEN") "") as [E|E].
  - split; [reflexivity|]. split; [|contradiction].
    intros _. eexists. reflexivity.
  - split; [reflexivity|]. split; [contradiction|].
    intros _. exists (tokenAuth (env w "API_TOKEN")).
    split; [reflexivity|]. intro authHeader.
    split; [apply tokenAuth_passes|].
    intro Hne. apply tokenAuth_refuses. intro Hpass.
    apply tokenAuth_passes in Hpass. contradiction.
Qed.

(** X2: on the routes of [main], a request of the [/api] group whose
    header is not ["Bearer "] followed by the token is answered 401 and
    leaves the world as it was: no row is read, created or deleted, no
    code is generated.  With that header the request is served by its
    handler.  [GET /:code] is served whatever the header. *)
Theorem X2_route_requires_token `{net_url} (token authHeader : string)
  (r : Request) (w : World) :
  (forall code, r = GET_code code ->
                route (tokenAuth token) authHeader r w
                = handleRedirect code w) /\
  (authHeader = ("Bearer " ++ token)%string ->
   route (tokenAuth token) authHeader r w = serve r w) /\
  (authHeader <> ("Bearer " ++ token)%string ->
   (forall code, r <> GET_code code) ->
   snd (route (tokenAuth token) authHeader r w) = w /\
   exists msg,
     fst (route (tokenAuth token) authHeader r w)
     = JSON StatusUnauthorized (H_error msg)).
Proof.
  split; [|split].
  - intros code E. subst r. reflexivity.
  - intro E. apply tokenAuth_passes in E.
    destruct r; cbn [route serve]; try rewrite E; reflexivity.
  - intros Hne Hapi.
    destruct (tokenAuth_refuses token authHeader) as [msg Hmsg].
    { intro Hpass. apply tokenAuth_passes in Hpass. contradiction. }
    destruct r as [body|code|code|code]; cbn [route];
      try (exfalso; exact (Hapi code eq_refl));
      rewrite Hmsg; (split; [reflexivity | exists msg; reflexivity]).
Qed.

(** ** [handleCreate]: what is stored, and what is refused *)

(** X3: [handleCreate] stores one row or none.  When it answers 200, the
    answered code was in no stored link before, and the table is the old
    one followed by exactly one new row, which carries the answered code
    and URL and 0 clicks.  Every other answer is an error message, and the
    table is as it was. *)
Theorem X3_create_stores_one_row_or_none `{net_url}
  (body : result CreateReq) (w : World) :
  (forall r : CreateResp,
      fst (handleCreate body w) = JSON StatusOK (Body_CreateResp r) ->
      ~ stored_code (db w) (resp_Code r) /\
      exists l,
        rows (db (snd (handleCreate body w))) = rows (db w) ++ [l] /\
        Code l = resp_Code r /\ TargetURL l = resp_URL r /\ Clicks l = 0) /\
  ((forall r : CreateResp,
       fst (handleCreate body w) <> JSON StatusOK (Body_CreateResp r)) ->
   db (snd (handleCreate body w)) = db w /\
   exists status msg,
     fst (handleCreate body w) = JSON status (H_error msg)).
Proof.
  split.
  - intros r Hok.
    destruct (handleCreate_ok_inv body w r Hok)
      as [req [code [w1 [_ [_ [_ [[Fdb _] [_ [Hnf [Hrun Hr]]]]]]]]]].
    subst r. cbn [resp_Code resp_URL]. split.
    + destruct (db_First_cases code (db w)) as [[l [E _]]|[_ Habs]];
        [congruence | exact Habs].
    + exists (new_link req code w1). rewrite Hrun.
      cbn [snd after_create db db_insert rows]. rewrite Fdb.
      repeat split.
  - intro Hnot.
    destruct (handleCreate_cases body w)
      as [[Herr Hdb]|[req [code [w1 [_ [_ [_ Hrun]]]]]]].
    + split; [exact Hdb | exact Herr].
    + exfalso. rewrite Hrun in Hnot. cbn [fst] in Hnot.
      unfold create_response in Hnot. exact (Hnot _ eq_refl).
Qed.

(** The inputs [handleCreate] refuses before it looks at the table. *)
Definition bad_input `{net_url} (body : result CreateReq) : Prop :=
  match body with
  | Err _ => True
  | Ok req =>
      strings.TrimSpace (URL_ req) = EmptyString \/
      isValidURL (strings.TrimSpace (URL_ req)) = false \/
      (Custom req <> EmptyString /\
       (MaxCustomLength < Z.of_nat (String.length (Custom req)) \/
        isValidCode (Custom req) = false))
  end.

(** X4: a body that does not decode, a URL that is empty after trimming
    or not valid, a custom code longer than 64 bytes or with a character
    outside letters, digits, [_] and [-]: each is answered 400, and the
    world is left as it was (nothing stored, no random read, no reading of
    the clock). *)
Theorem X4_create_refuses_bad_input `{net_url} (body : result CreateReq)
  (w : World) (Hbad : bad_input body) :
  snd (handleCreate body w) = w /\
  exists msg,
    fst (handleCreate body w) = JSON StatusBadRequest (H_error msg).
Proof.
  destruct body as [req|e]; [|split; [|eexists]; reflexivity].
  unfold bad_input in Hbad. unfold handleCreate.
  destruct (String.eqb_spec (strings.TrimSpace (URL_ req)) "") as [E|E];
    [split; [|eexists]; reflexivity|].
  destruct (isValidURL (strings.TrimSpace (URL_ req))) eqn:Ev; cbn [negb];
    [|split; [|eexists]; reflexivity].
  destruct Hbad as [Hb|[Hb|[Hne Hb]]]; [contradiction | discriminate|].
  unfold bind, handleCreate_code.
  rewrite (string_eqb_false _ _ Hne). cbn [negb].
  destruct (Z.gtb_spec (Z.of_nat (String.length (Custom req)))
                       MaxCustomLength) as [Hlong|Hshort];
    [split; [|eexists]; reflexivity|].
  destruct Hb as [Hb|Hb]; [lia|]. rewrite Hb. cbn [negb].
  split; [|eexists]; reflexivity.
Qed.

Lemma X4_create_refuses_bad_input_witness :
  snd (@handleCreate sample_net_url
         (Ok {| URL_ := "https://example.com"; Custom := "go 123";
                TTL := 0 |})
         (sample_world [link_abc] "" 20 rounds_src))
  = sample_world [link_abc] "" 20 rounds_src.
Proof.
  destruct (@X4_create_refuses_bad_input sample_net_url
              (Ok {| URL_ := "https://example.com"; Custom := "go 123";
                     TTL := 0 |})
              (sample_world [link_abc] "" 20 rounds_src)) as [Hw _].
  - right. right. split; [discriminate|]. right. reflexivity.
  - exact Hw.
Defined.

(** A read of the random source fails in round [k], after [k] rounds that
    collided: the loop writes the generation failure. *)
Lemma handleCreate_loop_fails (k : nat) :
  forall (rounds : list Z) (code0 : string) (w : World) (e : error),
    (k < List.length rounds)%nat ->
    (forall j, (j < k)%nat -> nth j rounds 0 <> 4) ->
    (forall j, (j < k)%nat ->
               exists cj, attempt w j = Ok cj /\ stored_code (db w) cj) ->
    attempt w k = Err e ->
    fst (handleCreate_loop rounds code0 w) = inl generation_failed.
Proof.
  induction k as [|k IH]; intros rounds code0 w e Hlen Hno4 Hcoll Hk;
    (destruct rounds as [|i rounds]; [simpl in Hlen; lia|]);
    rewrite handleCreate_loop_step.
  - rewrite attempt_first in Hk. rewrite Hk. reflexivity.
  - destruct (Hcoll 0%nat ltac:(lia)) as [c0 [H0 Hst]].
    rewrite attempt_first in H0. rewrite H0.
    destruct (db_First_present _ _ Hst) as [l El]. rewrite El.
    pose proof (Hno4 0%nat ltac:(lia)) as Hi. cbn [nth] in Hi.
    apply Z.eqb_neq in Hi. rewrite Hi.
    apply (IH rounds c0 (set_rand_pos (rand_pos w + 6) w) e).
    + simpl in Hlen. lia.
    + intros j Hj. exact (Hno4 (S j) ltac:(lia)).
    + intros j Hj. rewrite attempt_shift. exact (Hcoll (S j) ltac:(lia)).
    + rewrite attempt_shift. exact Hk.
Qed.

(** X5: without a custom code, when a read of the random source fails
    while one of the five codes is generated (the codes before it having
    collided), the create is answered 500 with the generation failure and
    the table is left as it was. *)
Theorem X5_create_random_source_failure `{net_url} (req : CreateReq)
  (w : World) (k : nat) (e : error)
  (Hurl : url_accepted req) (Hcustom : Custom req = EmptyString)
  (Hk : (k < 5)%nat)
  (Hcoll : forall j, (j < k)%nat ->
                     exists cj, attempt w j = Ok cj /\
                                stored_code (db w) cj)
  (Hfail : attempt w k = Err e) :
  fst (handleCreate (Ok req) w)
  = JSON StatusInternalServerError (H_error "生成短码失败") /\
  db (snd (handleCreate (Ok req) w)) = db w.
Proof.
  assert (Hloop : fst (handleCreate_code req w) = inl generation_failed).
  { rewrite (handleCreate_code_generated req w Hcustom).
    apply (handleCreate_loop_fails k _ _ _ e); try assumption.
    intros j Hj. do 4 (destruct j as [|j]; [cbn; lia|]). lia. }
  rewrite (handleCreate_early req w generation_failed Hurl Hloop).
  cbn [fst snd]. split; [reflexivity|].
  destruct (handleCreate_code_frame req w) as [[Fdb _] _]. exact Fdb.
Qed.

Lemma X5_create_random_source_failure_witness :
  fst (@handleCreate sample_net_url (Ok (sample_req "" 0))
         (sample_world [link_abc] "" 20 failing_src))
  = JSON StatusInternalServerError (H_error "生成短码失败") /\
  db (snd (@handleCreate sample_net_url (Ok (sample_req "" 0))
             (sample_world [link_abc] "" 20 failing_src)))
  = db (sample_world [link_abc] "" 20 failing_src).
Proof.
  assert (Hurl : @url_accepted sample_net_url (sample_req "" 0))
    by (split; [vm_compute; discriminate | vm_compute; reflexivity]).
  apply (@X5_create_random_source_failure sample_net_url (sample_req "" 0)
           (sample_world [link_abc] "" 20 failing_src) 0%nat ErrRandRead
           Hurl eq_refl).
  - lia.
  - intros j Hj. lia.
  - vm_compute. reflexivity.
Defined.

(** ** What every stored link satisfies *)

Lemma in_alphabet_code_char (c : ascii) : in_alphabet c -> code_char c.
Proof.
  intro Hc.
  assert (Hall : all_chars code_char alphabet).
  { apply (isValidCode_spec alphabet). vm_compute. reflexivity. }
  exact (all_chars_mem _ _ _ Hall Hc).
Qed.

(** A string over the alphabet of the generator is a valid code. *)
Lemma alphabet_code_valid (c : string) :
  c <> EmptyString -> all_chars in_alphabet c -> isValidCode c = true.
Proof.
  intros Hne Hall. apply isValidCode_spec. split; [exact Hne|].
  exact (all_chars_impl _ _ _ in_alphabet_code_char Hall).
Qed.

Lemma handleCreate_loop_chars (rounds : list Z) :
  forall (code0 : string) (w : World) (c : string),
    In 4 rounds ->
    fst (handleCreate_loop rounds code0 w) = inr c ->
    String.length c = 6%nat /\ all_chars in_alphabet c.
Proof.
  induction rounds as [|i rounds IH]; intros code0 w c Hin; [destruct Hin|].
  rewrite handleCreate_loop_step.
  destruct (code_at (rand_src w) (rand_pos w)) as [c1|e] eqn:E;
    [|discriminate].
  destruct (code_at_ok _ _ _ E) as [_ [Hlen Hchars]].
  assert (Hnext : fst (if i =? 4
                       then (@inl Response string generation_conflict,
                             set_rand_pos (rand_pos w + 6) w)
                       else handleCreate_loop rounds c1
                              (set_rand_pos (rand_pos w + 6) w)) = inr c ->
                  String.length c = 6%nat /\ all_chars in_alphabet c).
  { destruct (Z.eqb_spec i 4) as [E4|E4]; [discriminate|].
    destruct Hin as [Hin|Hin]; [congruence|]. exact (IH c1 _ c Hin). }
  destruct (db_First c1 (db w)) as [l|[]]; try exact Hnext.
  cbn [fst]. intro H. inversion H. subst c. auto.
Qed.

(** A code [handleCreate] chooses passes [isValidCode] and has at most 64
    bytes. *)
Lemma handleCreate_code_valid (req : CreateReq) (w : World) (c : string) :
  fst (handleCreate_code req w) = inr c ->
  isValidCode c = true /\ Z.of_nat (String.length c) <= MaxCustomLength.
Proof.
  destruct (String.eqb_spec (Custom req) "") as [Hc|Hc].
  - rewrite (handleCreate_code_generated req w Hc). intro Hcode.
    destruct (handleCreate_loop_chars [0; 1; 2; 3; 4] "" w c
                ltac:(simpl; tauto) Hcode) as [Hlen Hchars].
    split.
    + apply alphabet_code_valid; [|exact Hchars].
      intro E. subst c. discriminate.
    + rewrite Hlen. unfold MaxCustomLength. lia.
  - unfold handleCreate_code. rewrite (string_eqb_false _ _ Hc). cbn [negb].
    destruct (Z.gtb_spec (Z.of_nat (String.length (Custom req)))
                         MaxCustomLength) as [Hlong|Hshort];
      [discriminate|].
    destruct (isValidCode (Custom req)) eqn:Ev; cbn [negb]; [|discriminate].
    unfold bind, First.
    destruct (db_First (Custom req) (db w)); cbn [ret fst];
      [discriminate|].
    intro H. inversion H. subst c. auto.
Qed.

(** What the data model asks of a link: a code of valid characters and at
    most 64 bytes, a non-empty target that [isValidURL] accepts, and a
    count of clicks that is not negative. *)
Definition link_ok `{net_url} (l : ShortLink) : Prop :=
  isValidCode (Code l) = true /\
  Z.of_nat (String.length (Code l)) <= MaxCustomLength /\
  TargetURL l <> EmptyString /\
  isValidURL (TargetURL l) = true /\
  0 <= Clicks l.

Definition table_ok `{net_url} (d : DB) : Prop :=
  db_wf d /\ forall l, stored d l -> link_ok l.

Lemma serve_table_ok `{net_url} (r : Request) (w : World) :
  table_ok (db w) -> table_ok (db (snd (serve r w))).
Proof.
  intros [Hwf Hok]. split; [exact (serve_wf r w Hwf)|].
  intros l' Hst.
  destruct r as [body|code|code|code].
  - cbn [serve] in Hst.
    destruct (handleCreate_cases body w)
      as [[_ Hdb]|[req [code [w1 [Hb [[Hne Hvalid] [Hcode Hrun]]]]]]].
    + apply Hok. rewrite <- Hdb. exact Hst.
    + destruct (handleCreate_code_frame req w) as [[Fdb _] _].
      rewrite Hcode in Fdb. cbn [snd] in Fdb.
      destruct (handleCreate_code_valid req w code) as [Hc Hlen];
        [rewrite Hcode; reflexivity|].
      rewrite Hrun in Hst. cbn [snd after_create db] in Hst.
      unfold stored, db_insert in Hst. cbn [rows] in Hst.
      apply in_app_iff in Hst. destruct Hst as [Hold|[Hnew|[]]].
      * apply Hok. unfold stored. rewrite <- Fdb. exact Hold.
      * subst l'. unfold link_ok, new_link. cbn [Code TargetURL Clicks].
        repeat split; try assumption. lia.
  - destruct (serve_rows (GET_code code) w l' Hwf Hst)
      as [Hk|body E _ _|l Hl E _ _ _].
    + exact (Hok l' Hk).
    + discriminate.
    + subst l'. destruct (Hok l Hl) as [A [B [C [D E']]]].
      unfold link_ok. cbn [add_clicks Code TargetURL Clicks].
      repeat split; try assumption. lia.
  - destruct (serve_rows (GET_info code) w l' Hwf Hst)
      as [Hk|body E _ _|l Hl _ E _ _]; [exact (Hok l' Hk) | | ];
      discriminate.
  - destruct (serve_rows (DELETE_code code) w l' Hwf Hst)
      as [Hk|body E _ _|l Hl _ E _ _]; [exact (Hok l' Hk) | | ];
      discriminate.
Qed.

(** X6: the empty table satisfies the constraints of the data model, and
    any sequence of requests keeps them: keys and codes stay unique, and
    every stored link has a code that [isValidCode] accepts, of at most 64
    bytes, a non-empty target URL that [isValidURL] accepts, and a count of
    clicks that is not negative. *)
Theorem X6_requests_keep_table_ok `{net_url} :
  table_ok DB_empty /\
  forall (requests : list Request) (w : World),
    table_ok (db w) -> table_ok (db (snd (run requests w))).
Proof.
  split.
  - split; [exact db_wf_empty|]. intros l [].
  - induction requests as [|r requests IH]; intros w Hok; [exact Hok|].
    cbn [run]. unfold bind.
    pose proof (serve_table_ok r w Hok) as Hstep.
    destruct (serve r w) as [resp w1]. cbn [snd] in Hstep.
    pose proof (IH w1 Hstep) as Hrest.
    destruct (run requests w1) as [resps w2]. exact Hrest.
Qed.

(** ** The expiry [handleCreate] stores *)

Lemma wrap64_small (x : Z) : - 2 ^ 63 <= x < 2 ^ 63 -> wrap64 x = x.
Proof. intro Hx. unfold wrap64. rewrite Z.mod_small; lia. Qed.

Lemma wrap64_below (x : Z) : wrap64 x < 2 ^ 63.
Proof.
  unfold wrap64.
  pose proof (Z.mod_pos_bound (x + 2 ^ 63) (2 ^ 64) ltac:(lia)). lia.
Qed.

(** The link a successful create stores, found again by its code. *)
Lemma handleCreate_stored_link `{net_url} (req : CreateReq) (w : World)
      (r : CreateResp) :
  fst (handleCreate (Ok req) w) = JSON StatusOK (Body_CreateResp r) ->
  resp_Code r <> EmptyString /\
  resp_URL r = create_url req /\
  db_First (resp_Code r) (db (snd (handleCreate (Ok req) w)))
  = Ok (new_link req (resp_Code r) w).
Proof.
  intro Hok.
  destruct (handleCreate_ok_inv (Ok req) w r Hok)
    as [req' [code [w1 [Hb [_ [_ [F [Hne [Hnf [Hrun Hr]]]]]]]]]].
  inversion Hb. subst req'. subst r. cbn [resp_Code resp_URL].
  split; [exact Hne|]. split; [reflexivity|].
  rewrite Hrun. cbn [snd after_create db]. rewrite db_First_insert.
  destruct F as [Fdb [_ [Fclock [Fpos _]]]]. rewrite Fdb, Hnf.
  unfold has_code, new_link. cbn [Code]. rewrite String.eqb_refl.
  rewrite Fdb, Fclock, Fpos. reflexivity.
Qed.

(** X7: for [0 < ttl_seconds <= 9223372036], a successful create stores
    the link with the first reading of the clock as its creation time and
    with the second reading plus [ttl_seconds] seconds as its expiry.  A
    later redirect of its code is answered 302 to the target as long as the
    clock has not passed that expiry, and 410 once it has. *)
Theorem X7_ttl_sets_expiry `{net_url} (req : CreateReq) (w : World)
  (r : CreateResp)
  (Hok : fst (handleCreate (Ok req) w) = JSON StatusOK (Body_CreateResp r))
  (Httl : 0 < TTL req <= 9223372036) :
  exists l,
    db_First (resp_Code r) (db (snd (handleCreate (Ok req) w))) = Ok l /\
    CreatedAt l = clock w (clock_pos w) /\
    ExpiredAt l = {| Time := clock w (S (clock_pos w))
                             + TTL req * 1000000000;
                     Valid := true |} /\
    forall w2 : World,
      db w2 = db (snd (handleCreate (Ok req) w)) ->
      (now_of w2 <= Time (ExpiredAt l) ->
       fst (handleRedirect (resp_Code r) w2)
       = Redirect StatusFound (strings.TrimSpace (URL_ req))) /\
      (Time (ExpiredAt l) < now_of w2 ->
       fst (handleRedirect (resp_Code r) w2)
       = JSON StatusGone (H_error "短链已过期")).
Proof.
  destruct (handleCreate_stored_link req w r Hok) as [Hne [_ Hfound]].
  exists (new_link req (resp_Code r) w).
  split; [exact Hfound|]. split; [reflexivity|].
  assert (Hexp : ExpiredAt (new_link req (resp_Code r) w)
                 = {| Time := clock w (S (clock_pos w))
                              + TTL req * 1000000000;
                      Valid := true |}).
  { unfold new_link. cbn [ExpiredAt].
    destruct (Z.gtb_spec (TTL req) 0) as [_|Hle]; [|lia].
    unfold time_Second. rewrite wrap64_small by lia. reflexivity. }
  split; [exact Hexp|].
  intros w2 Hdb. rewrite <- Hdb in Hfound.
  rewrite (handleRedirect_found _ w2 _ Hne Hfound).
  rewrite Hexp. cbn [Valid Time]. split; intro Hnow.
  - destruct (Z.ltb_spec (clock w (S (clock_pos w)) + TTL req * 1000000000)
                         (now_of w2)); [lia | reflexivity].
  - destruct (Z.ltb_spec (clock w (S (clock_pos w)) + TTL req * 1000000000)
                         (now_of w2)); [reflexivity | lia].
Qed.

Lemma X7_ttl_sets_expiry_witness :
  exists l,
    db_First "go123"
      (db (snd (@handleCreate sample_net_url (Ok (sample_req "go123" 60))
                  (sample_world [] "" 20 rounds_src))))
    = Ok l /\
    ExpiredAt l = {| Time := 60000000021; Valid := true |}.
Proof.
  destruct (@X7_ttl_sets_expiry sample_net_url (sample_req "go123" 60)
              (sample_world [] "" 20 rounds_src)
              {| resp_Code := "go123";
                 resp_ShortURL := "http://localhost:8080/go123";
                 resp_URL := "https://example.com" |})
    as [l [A [_ [C _]]]].
  - vm_compute. reflexivity.
  - vm_compute. split; [reflexivity | discriminate].
  - exists l. split; [exact A | exact C].
Defined.

(** X8: for [ttl_seconds] above 9223372036 the 64-bit product with
    [time.Second] wraps: the stored expiry is set, but lies before the
    second reading of the clock plus [ttl_seconds] seconds; up to
    18446744073 it lies before that reading itself, and a redirect at or
    after that reading is answered 410. *)
Theorem X8_ttl_overflow `{net_url} (req : CreateReq) (w : World)
  (r : CreateResp)
  (Hok : fst (handleCreate (Ok req) w) = JSON StatusOK (Body_CreateResp r))
  (Httl : 9223372036 < TTL req) :
  exists l,
    db_First (resp_Code r) (db (snd (handleCreate (Ok req) w))) = Ok l /\
    Valid (ExpiredAt l) = true /\
    Time (ExpiredAt l) < clock w (S (clock_pos w)) + TTL req * 1000000000 /\
    (TTL req <= 18446744073 ->
     Time (ExpiredAt l) < clock w (S (clock_pos w)) /\
     forall w2 : World,
       db w2 = db (snd (handleCreate (Ok req) w)) ->
       clock w (S (clock_pos w)) <= now_of w2 ->
       fst (handleRedirect (resp_Code r) w2)
       = JSON StatusGone (H_error "短链已过期")).
Proof.
  destruct (handleCreate_stored_link req w r Hok) as [Hne [_ Hfound]].
  exists (new_link req (resp_Code r) w).
  split; [exact Hfound|].
  assert (Hexp : ExpiredAt (new_link req (resp_Code r) w)
                 = {| Time := clock w (S (clock_pos w))
                              + wrap64 (TTL req * 1000000000);
                      Valid := true |}).
  { unfold new_link. cbn [ExpiredAt].
    destruct (Z.gtb_spec (TTL req) 0) as [_|Hle]; [reflexivity | lia]. }
  rewrite Hexp. cbn [Valid Time].
  pose proof (wrap64_below (TTL req * 1000000000)) as Hbelow.
  split; [reflexivity|]. split; [lia|].
  intro Hup.
  assert (Hneg : wrap64 (TTL req * 1000000000) < 0).
  { unfold wrap64.
    replace (TTL req * 1000000000 + 2 ^ 63)
      with ((TTL req * 1000000000 - 2 ^ 63) + 1 * 2 ^ 64) by lia.
    rewrite Z.mod_add by lia. rewrite Z.mod_small; lia. }
  split; [lia|].
  intros w2 Hdb Hnow. rewrite <- Hdb in Hfound.
  rewrite (handleRedirect_found _ w2 _ Hne Hfound).
  rewrite Hexp. cbn [Valid Time].
  destruct (Z.ltb_spec (clock w (S (clock_pos w))
                        + wrap64 (TTL req * 1000000000)) (now_of w2));
    [reflexivity | lia].
Qed.

Lemma X8_ttl_overflow_witness :
  exists l,
    db_First "go123"
      (db (snd (@handleCreate sample_net_url
                  (Ok (sample_req "go123" 9223372037))
                  (sample_world [] "" 20 rounds_src))))
    = Ok l /\
    Time (ExpiredAt l) < 21.
Proof.
  destruct (@X8_ttl_overflow sample_net_url (sample_req "go123" 9223372037)
              (sample_world [] "" 20 rounds_src)
              {| resp_Code := "go123";
                 resp_ShortURL := "http://localhost:8080/go123";
                 resp_URL := "https://example.com" |})
    as [l [A [_ [_ D]]]].
  - vm_compute. reflexivity.
  - vm_compute. reflexivity.
  - exists l. split; [exact A|].
    destruct D as [D _]; [vm_compute; discriminate | exact D].
Defined.

(** ** [handleInfo] *)

Lemma handleInfo_found (code : string) (w : World) (l : ShortLink) :
  db_First code (db w) = Ok l ->
  handleInfo code w
  = (JSON StatusOK
       (H_info (Code l) (TargetURL l) (Clicks l) (CreatedAt l)
               (ExpiredAt l)), w).
Proof. intro E. unfold handleInfo, bind, First. rewrite E. reflexivity. Qed.

Lemma handleInfo_absent (code : string) (w : World) :
  ~ stored_code (db w) code -> handleInfo code w = (not_found_response, w).
Proof.
  intro Habs. unfold handleInfo, bind, First.
  rewrite (db_First_absent _ _ Habs). reflexivity.
Qed.

(** X9: what a successful create answers can be read back: info on the
    answered code, asked of the world the create leaves, answers 200 with
    that code, the answered URL, 0 clicks, the creation time the clock
    read first and an expiry that is set exactly when [ttl_seconds > 0];
    asking changes nothing. *)
Theorem X9_create_then_info `{net_url} (req : CreateReq) (w : World)
  (r : CreateResp)
  (Hok : fst (handleCreate (Ok req) w) = JSON StatusOK (Body_CreateResp r)) :
  exists expired_at : NullTime,
    handleInfo (resp_Code r) (snd (handleCreate (Ok req) w))
    = (JSON StatusOK
         (H_info (resp_Code r) (resp_URL r) 0 (clock w (clock_pos w))
                 expired_at),
       snd (handleCreate (Ok req) w)) /\
    Valid expired_at = (0 <? TTL req).
Proof.
  destruct (handleCreate_stored_link req w r Hok) as [_ [Hurl Hfound]].
  exists (ExpiredAt (new_link req (resp_Code r) w)).
  rewrite (handleInfo_found _ _ _ Hfound). rewrite Hurl.
  split; [reflexivity|].
  unfold new_link. cbn [ExpiredAt]. rewrite Z.gtb_ltb.
  destruct (0 <? TTL req); reflexivity.
Qed.

Lemma X9_create_then_info_witness :
  exists expired_at : NullTime,
    handleInfo "go123"
      (snd (@handleCreate sample_net_url (Ok (sample_req "go123" 0))
              (sample_world [] "" 20 rounds_src)))
    = (JSON StatusOK (H_info "go123" "https://example.com" 0 20 expired_at),
       snd (@handleCreate sample_net_url (Ok (sample_req "go123" 0))
              (sample_world [] "" 20 rounds_src))) /\
    Valid expired_at = false.
Proof.
  apply (@X9_create_then_info sample_net_url (sample_req "go123" 0)
           (sample_world [] "" 20 rounds_src)
           {| resp_Code := "go123";
              resp_ShortURL := "http://localhost:8080/go123";
              resp_URL := "https://example.com" |}).
  vm_compute. reflexivity.
Defined.

(** ** Counting redirects *)

Lemma add_clicks_zero (l : ShortLink) : add_clicks 0 l = l.
Proof. destruct l. unfold add_clicks. cbn. f_equal. lia. Qed.

Lemma add_clicks_add (n m : Z) (l : ShortLink) :
  add_clicks n (add_clicks m l) = add_clicks (m + n) l.
Proof. unfold add_clicks. cbn. f_equal. lia. Qed.

Lemma run_cons `{net_url} (r : Request) (requests : list Request)
      (w : World) :
  run (r :: requests) w
  = (fst (serve r w) :: fst (run requests (snd (serve r w))),
     snd (run requests (snd (serve r w)))).
Proof.
  cbn [run]. unfold bind, ret.
  destruct (serve r w) as [resp w1]. cbn [fst snd].
  destruct (run requests w1); reflexivity.
Qed.

(** X10: [n] redirects in a row of the code of a stored link without
    expiry are all answered 302 to its target, and afterwards the link has
    exactly [n] more clicks, which is what info then reports. *)
Theorem X10_redirects_count `{net_url} (n : nat) :
  forall (w : World) (l : ShortLink)
         (Hwf : db_wf (db w)) (Hin : stored (db w) l)
         (Hcode : Code l <> EmptyString)
         (Hnever : Valid (ExpiredAt l) = false),
    fst (run (repeat (GET_code (Code l)) n) w)
    = repeat (Redirect StatusFound (TargetURL l)) n /\
    db_First (Code l) (db (snd (run (repeat (GET_code (Code l)) n) w)))
    = Ok (add_clicks (Z.of_nat n) l) /\
    fst (handleInfo (Code l) (snd (run (repeat (GET_code (Code l)) n) w)))
    = JSON StatusOK
        (H_info (Code l) (TargetURL l) (Clicks l + Z.of_nat n)
                (CreatedAt l) (ExpiredAt l)).
Proof.
  induction n as [|n IH]; intros w l Hwf Hin Hcode Hnever.
  - cbn [repeat run ret fst snd]. rewrite add_clicks_zero.
    pose proof (db_First_wf _ _ Hwf Hin) as Hfound.
    split; [reflexivity|]. split; [exact Hfound|].
    rewrite (handleInfo_found _ _ _ Hfound). cbn [fst Z.of_nat].
    rewrite Z.add_0_r. reflexivity.
  - cbn [repeat]. rewrite run_cons. cbn [serve].
    rewrite (handleRedirect_found (Code l) w l Hcode
               (db_First_wf _ _ Hwf Hin)).
    rewrite Hnever. cbn [fst snd].
    set (w1 := set_db (db_UpdateColumn_clicks l 1 (db w)) w).
    assert (Hwf1 : db_wf (db w1)) by (apply db_wf_update; exact Hwf).
    assert (Hin1 : stored (db w1) (add_clicks 1 l))
      by (apply db_update_bumps; assumption).
    destruct (IH w1 (add_clicks 1 l) Hwf1 Hin1 Hcode Hnever)
      as [Hresps [Hfound Hinfo]].
    cbn [add_clicks Code TargetURL Clicks CreatedAt ExpiredAt]
      in Hresps, Hfound, Hinfo.
    split; [rewrite Hresps; reflexivity|].
    rewrite add_clicks_add in Hfound.
    replace (Z.of_nat (S n)) with (1 + Z.of_nat n) by lia.
    split; [exact Hfound|].
    rewrite Hinfo.
    replace (Clicks l + (1 + Z.of_nat n)) with (Clicks l + 1 + Z.of_nat n)
      by lia.
    reflexivity.
Qed.

Lemma X10_redirects_count_witness :
  db_First "hello"
    (db (snd (@run sample_net_url (repeat (GET_code "hello") 3)
                (sample_world
                   [ {| ID := 1; Code := "hello";
                        TargetURL := "https://example.com"; Clicks := 0;
                        CreatedAt := 5; ExpiredAt := NullTime_zero |} ]
                   "" 20 rounds_src))))
  = Ok {| ID := 1; Code := "hello"; TargetURL := "https://example.com";
          Clicks := 3; CreatedAt := 5; ExpiredAt := NullTime_zero |}.
Proof.
  apply (@X10_redirects_count sample_net_url 3
           (sample_world
              [ {| ID := 1; Code := "hello";
                   TargetURL := "https://example.com"; Clicks := 0;
                   CreatedAt := 5; ExpiredAt := NullTime_zero |} ]
              "" 20 rounds_src)
           {| ID := 1; Code := "hello"; TargetURL := "https://example.com";
              Clicks := 0; CreatedAt := 5; ExpiredAt := NullTime_zero |}).
  - sample_wf.
  - left. reflexivity.
  - discriminate.
  - reflexivity.
Defined.

(** ** [handleDelete] *)

Lemma filter_has_code_nil (code : string) (d : DB) :
  filter (has_code code) (rows d) = [] <-> ~ stored_code d code.
Proof.
  unfold stored_code, stored. split.
  - intros Hnil [l [Hin Hc]].
    assert (Hf : In l (filter (has_code code) (rows d)))
      by (apply filter_In; split; [exact Hin | apply has_code_true; exact Hc]).
    rewrite Hnil in Hf. destruct Hf.
  - intro Habs. induction (rows d) as [|x xs IH]; [reflexivity|].
    cbn [filter]. destruct (has_code code x) eqn:E.
    + exfalso. apply Habs. exists x. split; [left; reflexivity|].
      apply has_code_true. exact E.
    + apply IH. intros [l [Hin Hc]]. apply Habs. exists l.
      split; [right; exact Hin | exact Hc].
Qed.

Lemma filter_all_kept {A : Type} (p : A -> bool) (l : list A) :
  (forall x, In x l -> p x = true) -> filter p l = l.
Proof.
  induction l as [|x xs IH]; intro Hall; [reflexivity|].
  cbn [filter]. rewrite (Hall x (or_introl eq_refl)). f_equal.
  apply IH. intros y Hy. apply Hall. right. exact Hy.
Qed.

Lemma find_filter_implied {A : Type} (p q : A -> bool) (l : list A) :
  (forall x, p x = true -> q x = true) ->
  find p (filter q l) = find p l.
Proof.
  intro Hpq. induction l as [|x xs IH]; [reflexivity|].
  cbn [filter find]. destruct (p x) eqn:Ep.
  - rewrite (Hpq x Ep). cbn [find]. rewrite Ep. reflexivity.
  - destruct (q x); [cbn [find]; rewrite Ep|]; exact IH.
Qed.

Lemma db_Delete_removes (code : string) (d : DB) :
  ~ stored_code (snd (db_Delete code d)) code.
Proof.
  unfold db_Delete, stored_code, stored. cbn [snd rows].
  intros [l [Hin Hc]]. apply filter_In in Hin. destruct Hin as [_ Hn].
  apply has_code_true in Hc. rewrite Hc in Hn. discriminate.
Qed.

Lemma db_Delete_others (code c : string) (d : DB) :
  c <> code -> db_First c (snd (db_Delete code d)) = db_First c d.
Proof.
  intro Hne. unfold db_Delete, db_First. cbn [snd rows].
  rewrite find_filter_implied; [reflexivity|].
  intros x Hx. apply has_code_true in Hx.
  destruct (has_code code x) eqn:E; [|reflexivity].
  apply has_code_true in E. congruence.
Qed.

Lemma db_Delete_absent (code : string) (d : DB) :
  ~ stored_code d code -> db_Delete code d = (0, d).
Proof.
  intro Habs. unfold db_Delete.
  rewrite (proj2 (filter_has_code_nil code d) Habs). cbn [List.length].
  rewrite filter_all_kept.
  - destruct d; reflexivity.
  - intros x Hx. destruct (has_code code x) eqn:E; [|reflexivity].
    exfalso. apply Habs. exists x. split; [exact Hx|].
    apply has_code_true. exact E.
Qed.

Lemma handleDelete_present (code : string) (w : World) :
  stored_code (db w) code -> fst (handleDelete code w) = JSON StatusOK H_ok.
Proof.
  intro Hst. unfold handleDelete, bind, Delete, db_Delete.
  destruct (filter (has_code code) (rows (db w))) as [|x xs] eqn:E.
  - exfalso. exact (proj1 (filter_has_code_nil code (db w)) E Hst).
  - reflexivity.
Qed.

Lemma handleDelete_absent (code : string) (w : World) :
  ~ stored_code (db w) code ->
  fst (handleDelete code w) = not_found_response /\
  db (snd (handleDelete code w)) = db w.
Proof.
  intro Habs. unfold handleDelete, bind, Delete.
  rewrite (db_Delete_absent code (db w) Habs). cbn. auto.
Qed.

(** X11: deleting a code that some stored link has is answered 200;
    deleting a code that no stored link has is answered 404 and leaves the
    table as it was.  Either way, afterwards no stored link has the code:
    info, redirect and a second delete of it are answered 404, while the
    lookup of every other code gives what it gave before. *)
Theorem X11_delete_removes_code (code : string) (w : World) :
  (stored_code (db w) code ->
   fst (handleDelete code w) = JSON StatusOK H_ok) /\
  (~ stored_code (db w) code ->
   fst (handleDelete code w) = JSON StatusNotFound (H_error "短链不存在") /\
   db (snd (handleDelete code w)) = db w) /\
  ~ stored_code (db (snd (handleDelete code w))) code /\
  (forall c, c <> code ->
             db_First c (db (snd (handleDelete code w)))
             = db_First c (db w)) /\
  fst (handleInfo code (snd (handleDelete code w)))
  = JSON StatusNotFound (H_error "短链不存在") /\
  fst (handleDelete code (snd (handleDelete code w)))
  = JSON StatusNotFound (H_error "短链不存在") /\
  (code <> EmptyString ->
   fst (handleRedirect code (snd (handleDelete code w)))
   = JSON StatusNotFound (H_error "短链不存在")).
Proof.
  assert (Hgone : ~ stored_code (db (snd (handleDelete code w))) code)
    by (rewrite handleDelete_db; apply db_Delete_removes).
  split; [exact (handleDelete_present code w)|].
  split; [exact (handleDelete_absent code w)|].
  split; [exact Hgone|].
  split; [intros c Hne; rewrite handleDelete_db;
          exact (db_Delete_others code c (db w) Hne)|].
  split; [rewrite (handleInfo_absent _ _ Hgone); reflexivity|].
  split; [exact (proj1 (handleDelete_absent _ _ Hgone))|].
  intro Hne. rewrite (handleRedirect_absent _ _ Hne Hgone). reflexivity.
Qed.

(** X12: a delete frees the code: after the delete of a code, a create
    with an accepted URL and that code as a valid custom code succeeds and
    answers it, whatever link, expired or not, had the code before. *)
Theorem X12_delete_then_create `{net_url} (req : CreateReq) (w : World)
  (Hurl : url_accepted req)
  (Hcustom : Custom req <> EmptyString)
  (Hlen : Z.of_nat (String.length (Custom req)) <= 64)
  (Hchars : isValidCode (Custom req) = true) :
  exists short_url,
    fst (handleCreate (Ok req) (snd (handleDelete (Custom req) w)))
    = JSON StatusOK
        (Body_CreateResp {| resp_Code := Custom req;
                            resp_ShortURL := short_url;
                            resp_URL := strings.TrimSpace (URL_ req) |}).
Proof.
  set (w1 := snd (handleDelete (Custom req) w)).
  assert (Hgone : ~ stored_code (db w1) (Custom req))
    by (unfold w1; rewrite handleDelete_db; apply db_Delete_removes).
  pose proof (handleCreate_code_custom req w1 Hcustom Hlen Hchars) as Hcode.
  rewrite (db_First_absent _ _ Hgone) in Hcode.
  rewrite (handleCreate_stores req w1 (Custom req) Hurl)
    by (rewrite Hcode; reflexivity).
  eexists. reflexivity.
Qed.

Lemma X12_delete_then_create_witness :
  exists short_url,
    fst (@handleCreate sample_net_url (Ok (sample_req "abc" 0))
           (snd (handleDelete "abc"
                   (sample_world [link_abc] "" 20 rounds_src))))
    = JSON StatusOK
        (Body_CreateResp {| resp_Code := "abc";
                            resp_ShortURL := short_url;
                            resp_URL := "https://example.com" |}).
Proof.
  apply (@X12_delete_then_create sample_net_url (sample_req "abc" 0)
           (sample_world [link_abc] "" 20 rounds_src)).
  - split; [vm_compute; discriminate | vm_compute; reflexivity].
  - discriminate.
  - vm_compute. discriminate.
  - vm_compute. reflexivity.
Defined.

(** ** [encodeBase62] *)

(** The position of a character in a string. *)
Fixpoint index_of (c : ascii) (s : string) : option nat :=
  match s with
  | EmptyString => None
  | String d s' =>
      if Ascii.eqb c d then Some O
      else match index_of c s' with
           | Some n => Some (S n)
           | None => None
           end
  end.

(** Reading digits of [alphabet], the most significant first, on top of
    the value [acc]. *)
Fixpoint decode_from (acc : Z) (digits : list ascii) : option Z :=
  match digits with
  | [] => Some acc
  | c :: digits' =>
      match index_of c alphabet with
      | Some d => decode_from (acc * 62 + Z.of_nat d) digits'
      | None => None
      end
  end.

(** The number a string of base-62 digits stands for. *)
Definition decodeBase62 (s : string) : option Z :=
  decode_from 0 (list_ascii_of_string s).

Definition digit_ok (d : nat) : bool :=
  match String.get d alphabet with
  | Some c =>
      match index_of c alphabet with
      | Some d' => Nat.eqb d' d
      | None => false
      end
  | None => false
  end.

Lemma alphabet_digit (d : nat) :
  (d < 62)%nat ->
  exists c, String.get d alphabet = Some c /\ index_of c alphabet = Some d /\
            in_alphabet c.
Proof.
  intro Hd.
  assert (Hall : forallb digit_ok (seq 0 62) = true)
    by (vm_compute; reflexivity).
  assert (Hok : digit_ok d = true).
  { apply (proj1 (forallb_forall _ _) Hall). apply in_seq. lia. }
  unfold digit_ok in Hok.
  destruct (get_mem alphabet d ltac:(exact Hd)) as [c [Hget Hmem]].
  rewrite Hget in Hok. exists c. split; [exact Hget|].
  destruct (index_of c alphabet) as [d'|]; [|discriminate].
  apply Nat.eqb_eq in Hok. subst d'. split; [reflexivity | exact Hmem].
Qed.

Lemma decode_from_app (a b : list ascii) :
  forall acc v, decode_from acc a = Some v ->
                decode_from acc (a ++ b) = decode_from v b.
Proof.
  induction a as [|c a IH]; intros acc v; cbn [decode_from app].
  - intro E. inversion E. reflexivity.
  - destruct (index_of c alphabet) as [d|]; [apply IH | discriminate].
Qed.

(** The digits the loop puts in front of [chars] for [num]. *)
Lemma encodeBase62_loop_spec (rounds : nat) :
  forall (num : Z) (chars : list ascii),
    0 <= num < 2 ^ Z.of_nat rounds ->
    exists digits,
      encodeBase62_loop rounds num chars = Ok (digits ++ chars) /\
      decode_from 0 digits = Some num /\
      Forall in_alphabet digits /\
      (num = 0 -> digits = []) /\
      (0 < num ->
       62 ^ Z.of_nat (List.length digits) <= 62 * num /\
       exists c rest, digits = c :: rest /\ c <> "0"%char).
Proof.
  induction rounds as [|rounds IH]; intros num chars Hnum.
  - assert (num = 0) by (cbn in Hnum; lia). subst num.
    exists []. cbn. repeat split; try constructor; lia.
  - cbn [encodeBase62_loop].
    destruct (Z.gtb_spec num 0) as [Hpos|Hzero].
    2:{ assert (num = 0) by lia. subst num.
        exists []. cbn. repeat split; try constructor; lia. }
    change (Z.of_nat (String.length alphabet)) with 62.
    pose proof (Z.mod_pos_bound num 62 ltac:(lia)) as Hrem.
    destruct (alphabet_digit (Z.to_nat (num mod 62)) ltac:(lia))
      as [c [Hget [Hidx Hin]]].
    rewrite Hget.
    assert (Hq : 0 <= num / 62 < 2 ^ Z.of_nat rounds).
    { split; [apply Z.div_pos; lia|].
      apply Z.div_lt_upper_bound; [lia|].
      rewrite Nat2Z.inj_succ, Z.pow_succ_r in Hnum by lia. lia. }
    destruct (IH (num / 62) (c :: chars) Hq)
      as [ds [Hloop [Hdec [Hall [Hnil Hlead]]]]].
    exists (ds ++ [c]). rewrite Hloop, <- app_assoc.
    split; [reflexivity|]. split; [|split; [|split]].
    + rewrite (decode_from_app ds [c] 0 (num / 62) Hdec).
      cbn [decode_from]. rewrite Hidx. f_equal.
      rewrite Z2Nat.id by lia.
      pose proof (Z.div_mod num 62 ltac:(lia)). lia.
    + apply Forall_app. split; [exact Hall | constructor; [exact Hin|constructor]].
    + intro H0. lia.
    + intros _. rewrite length_app. cbn [List.length].
      rewrite Nat2Z.inj_add, Z.pow_add_r by lia.
      change (62 ^ Z.of_nat 1) with 62.
      destruct (Z.eq_dec (num / 62) 0) as [Hq0|Hq0].
      * rewrite (Hnil Hq0). cbn [List.length app Z.of_nat].
        change (62 ^ 0) with 1. split; [lia|].
        exists c, []. split; [reflexivity|]. intro Hc. subst c.
        change (index_of "0" alphabet) with (Some 0%nat) in Hidx.
        inversion Hidx as [Hz].
        pose proof (Z.div_mod num 62 ltac:(lia)). lia.
      * destruct (Hlead ltac:(lia)) as [Hpow [c0 [rest [Hds Hc0]]]].
        pose proof (Z.mul_div_le num 62 ltac:(lia)).
        split; [nia|].
        exists c0, (rest ++ [c]). subst ds. split; [reflexivity | exact Hc0].
Qed.

Lemma list_ascii_of_string_of_list (cs : list ascii) :
  list_ascii_of_string (string_of_list_ascii cs) = cs.
Proof. induction cs as [|c cs IH]; cbn; congruence. Qed.

Lemma encodeBase62_digits (num : Z) :
  0 <= num < 2 ^ 64 ->
  exists digits,
    encodeBase62 num = Ok (string_of_list_ascii digits) /\
    decode_from 0 digits = Some num /\
    Forall in_alphabet digits /\
    (1 <= List.length digits <= 11)%nat /\
    (num = 0 -> digits = ["0"%char]) /\
    (num <> 0 -> exists c rest, digits = c :: rest /\ c <> "0"%char).
Proof.
  intro Hnum. unfold encodeBase62.
  destruct (Z.eqb_spec num 0) as [E|E].
  - subst num. exists ["0"%char]. cbn [string_of_list_ascii].
    split; [reflexivity|]. split; [vm_compute; reflexivity|].
    split; [constructor; [vm_compute; reflexivity | constructor]|].
    split; [cbn; lia|]. split; [reflexivity | congruence].
  - destruct (encodeBase62_loop_spec 64 num [] ltac:(exact Hnum))
      as [ds [Hloop [Hdec [Hall [_ Hlead]]]]].
    destruct (Hlead ltac:(lia)) as [Hpow [c [rest [Hds Hc]]]].
    rewrite Hloop, app_nil_r. exists ds.
    split; [reflexivity|]. split; [exact Hdec|]. split; [exact Hall|].
    split; [|split; [contradiction | intros _; exists c, rest; auto]].
    split; [subst ds; cbn; lia|].
    destruct (Nat.le_gt_cases (List.length ds) 11) as [Hle|Hgt];
      [exact Hle|].
    exfalso.
    assert (Hbig : 62 ^ 12 <= 62 ^ Z.of_nat (List.length ds))
      by (apply Z.pow_le_mono_r; lia).
    assert (H12 : 62 * 2 ^ 64 < 62 ^ 12) by (vm_compute; reflexivity).
    lia.
Qed.

(** X13: for every [uint64], [encodeBase62] returns a string (the index
    into the alphabet is never out of range), and reading that string back
    as base-62 digits over [alphabet], most significant first, gives the
    number again; so two different numbers never get the same string. *)
Theorem X13_encodeBase62_round_trip (num : Z) (Hnum : 0 <= num < 2 ^ 64) :
  (exists s, encodeBase62 num = Ok s /\ decodeBase62 s = Some num) /\
  (forall num', 0 <= num' < 2 ^ 64 ->
                encodeBase62 num' = encodeBase62 num -> num' = num).
Proof.
  assert (Hrt : forall n, 0 <= n < 2 ^ 64 ->
                          exists s, encodeBase62 n = Ok s /\
                                    decodeBase62 s = Some n).
  { intros n Hn.
    destruct (encodeBase62_digits n Hn) as [ds [Henc [Hdec _]]].
    exists (string_of_list_ascii ds). split; [exact Henc|].
    unfold decodeBase62. rewrite list_ascii_of_string_of_list. exact Hdec. }
  split; [exact (Hrt num Hnum)|].
  intros num' Hnum' Heq.
  destruct (Hrt num Hnum) as [s [Hs Hd]].
  destruct (Hrt num' Hnum') as [s' [Hs' Hd']].
  rewrite Hs, Hs' in Heq. inversion Heq. subst s'. congruence.
Qed.

Lemma X13_encodeBase62_round_trip_witness :
  exists s, encodeBase62 18446744073709551615 = Ok s /\
            decodeBase62 s = Some 18446744073709551615.
Proof.
  apply (X13_encodeBase62_round_trip 18446744073709551615).
  vm_compute. split; [discriminate | reflexivity].
Defined.

(** X14: for every [uint64], the string [encodeBase62] returns has between
    1 and 11 characters, all of [alphabet], so [isValidCode] accepts it;
    it is ["0"] for 0 and does not start with ['0'] otherwise. *)
Theorem X14_encodeBase62_shape (num : Z) (Hnum : 0 <= num < 2 ^ 64) :
  exists s,
    encodeBase62 num = Ok s /\
    (1 <= String.length s <= 11)%nat /\
    all_chars in_alphabet s /\
    isValidCode s = true /\
    (num = 0 -> s = "0"%string) /\
    (num <> 0 -> forall rest, s <> String "0" rest).
Proof.
  destruct (encodeBase62_digits num Hnum)
    as [ds [Henc [_ [Hall [Hlen [Hzero Hlead]]]]]].
  exists (string_of_list_ascii ds). split; [exact Henc|].
  split; [rewrite length_of_list; exact Hlen|].
  assert (Hchars : all_chars in_alphabet (string_of_list_ascii ds))
    by (apply all_chars_of_list; exact Hall).
  split; [exact Hchars|]. split; [|split].
  - apply alphabet_code_valid; [|exact Hchars].
    destruct ds; [cbn in Hlen; lia | discriminate].
  - intro E. rewrite (Hzero E). reflexivity.
  - intros E rest Hs. destruct (Hlead E) as [c [tl [Hds Hc]]].
    subst ds. cbn [string_of_list_ascii] in Hs. inversion Hs. contradiction.
Qed.

Lemma X14_encodeBase62_shape_witness :
  exists s,
    encodeBase62 3843 = Ok s /\
    (1 <= String.length s <= 11)%nat /\
    isValidCode s = true.
Proof.
  destruct (X14_encodeBase62_shape 3843) as [s [A [B [_ [D _]]]]].
  - lia.
  - exists s. split; [exact A|]. split; [exact B | exact D].
Defined.

(** ** [genRandomCode] and the validator *)

(** X15: a code [genRandomCode] returns is accepted by [isValidCode]; it
    has [length] characters (6 when [length <= 0]); generating it touched
    neither the table, nor the clock, nor the environment. *)
Theorem X15_genRandomCode_valid_code (length : Z) (w : World) (s : string)
  (Hok : fst (genRandomCode length w) = Ok s) :
  isValidCode s = true /\
  Z.of_nat (String.length s) = (if 0 <? length then length else 6) /\
  db (snd (genRandomCode length w)) = db w /\
  clock_pos (snd (genRandomCode length w)) = clock_pos w /\
  env (snd (genRandomCode length w)) = env w.
Proof.
  rewrite genRandomCode_spec in *. cbn [fst snd] in *.
  destruct (drawn (rand_src w) (code_length length) (rand_pos w))
    as [cs|e] eqn:E; [|discriminate].
  inversion Hok. subst s. clear Hok.
  destruct (reads_ok _ _ _ _ E) as [_ [Hlen Hall]].
  assert (Hn : Z.of_nat (code_length length)
               = if 0 <? length then length else 6).
  { unfold code_length, DefaultCodeLen.
    destruct (Z.leb_spec length 0); destruct (Z.ltb_spec 0 length); lia. }
  rewrite length_of_list, Hlen.
  split; [|split; [exact Hn | repeat split]].
  apply alphabet_code_valid; [|apply all_chars_of_list; exact Hall].
  destruct cs as [|c cs]; [|discriminate].
  cbn [List.length] in Hlen. rewrite <- Hlen in Hn. cbn in Hn.
  destruct (0 <? length) eqn:El; [apply Z.ltb_lt in El|]; lia.
Qed.

Lemma X15_genRandomCode_valid_code_witness :
  isValidCode "000000" = true /\
  db (snd (genRandomCode 6 (sample_world [link_abc] "" 20 rounds_src)))
  = db (sample_world [link_abc] "" 20 rounds_src).
Proof.
  destruct (X15_genRandomCode_valid_code 6
              (sample_world [link_abc] "" 20 rounds_src) "000000")
    as [A [_ [C _]]].
  - vm_compute. reflexivity.
  - split; [exact A | exact C].
Defined.

(** ** [seedExample] *)

Definition hello_link (w : World) : ShortLink :=
  {| ID := next_id (db w); Code := "hello";
     TargetURL := "https://example.com"; Clicks := 0;
     CreatedAt := now_of w; ExpiredAt := NullTime_zero |}.

Lemma seedExample_empty (w : World) :
  rows (db w) = [] ->
  seedExample w
  = (tt, set_db (db_insert (hello_link w) (db w)) (tick w)).
Proof.
  intro Hempty. unfold seedExample, bind, Count. rewrite Hempty.
  cbn [List.length Z.of_nat Z.eqb].
  unfold time_Now, Create, db_Create. cbn [db Code]. rewrite Hempty.
  cbn [existsb]. unfold hello_link, tick, time_Now, set_db, db_insert,
                        with_ID, now_of, ret.
  cbn. rewrite Hempty. reflexivity.
Qed.

Lemma seedExample_seeded (w : World) :
  rows (db w) <> [] -> seedExample w = (tt, w).
Proof.
  intro Hrows. unfold seedExample, bind, Count.
  destruct (rows (db w)) as [|x xs]; [congruence|]. reflexivity.
Qed.

(** X16: [seedExample] inserts only into an empty table, and then exactly
    the link ["hello"] to ["https://example.com"], with 0 clicks, no
    expiry and the reading of the clock as its creation time, after which
    a redirect of ["hello"] is answered 302 to that URL; a table that has a
    row is left as it is, with the rest of the world.  So a second call
    changes nothing in the table, and the constraints of the table are
    kept. *)
Theorem X16_seedExample_seeds_once (w : World) :
  (rows (db w) = [] ->
   rows (db (snd (seedExample w))) = [hello_link w] /\
   fst (handleRedirect "hello" (snd (seedExample w)))
   = Redirect StatusFound "https://example.com") /\
  (rows (db w) <> [] -> snd (seedExample w) = w) /\
  db (snd (seedExample (snd (seedExample w)))) = db (snd (seedExample w)) /\
  (db_wf (db w) -> db_wf (db (snd (seedExample w)))).
Proof.
  destruct (rows (db w)) as [|x xs] eqn:Hrows.
  - pose proof (seedExample_empty w Hrows) as Hseed.
    assert (Hafter : rows (db (snd (seedExample w))) = [hello_link w]).
    { rewrite Hseed. cbn [snd set_db db db_insert rows].
      rewrite Hrows. reflexivity. }
    split; [intros _; split; [exact Hafter|]|].
    + assert (Hfound : db_First "hello" (db (snd (seedExample w)))
                       = Ok (hello_link w)).
      { unfold db_First. rewrite Hafter. reflexivity. }
      rewrite (handleRedirect_found "hello" _ _ ltac:(discriminate) Hfound).
      reflexivity.
    + split; [congruence|]. split.
      * rewrite (seedExample_seeded (snd (seedExample w))); [reflexivity|].
        rewrite Hafter. discriminate.
      * intro Hwf. rewrite Hseed. cbn [snd set_db db].
        apply db_wf_insert; [exact Hwf | reflexivity|].
        intros [l [Hin _]]. unfold stored in Hin. rewrite Hrows in Hin.
        destruct Hin.
  - assert (Hne : rows (db w) <> []) by (rewrite Hrows; discriminate).
    pose proof (seedExample_seeded w Hne) as Hseed.
    split; [discriminate|]. split; [intros _; rewrite Hseed; reflexivity|].
    rewrite Hseed. cbn [snd]. rewrite Hseed. cbn [snd].
    split; [reflexivity | tauto].
Qed.

(** ** A code is given once *)

(** X17: once a create has succeeded, its code is taken: every later
    create with an accepted URL that asks for the answered code as its
    custom code, in a world with the table the first create left, is
    answered the conflict (409) and stores nothing.  This holds for a code
    the first create generated as for one it was given. *)
Theorem X17_created_code_is_taken `{net_url} (req req2 : CreateReq)
  (w w2 : World) (r : CreateResp)
  (Hok : fst (handleCreate (Ok req) w) = JSON StatusOK (Body_CreateResp r))
  (Hurl2 : url_accepted req2)
  (Hsame : Custom req2 = resp_Code r)
  (Hdb : db w2 = db (snd (handleCreate (Ok req) w))) :
  fst (handleCreate (Ok req2) w2)
  = JSON StatusConflict (H_error "自定义短码已存在") /\
  db (snd (handleCreate (Ok req2) w2)) = db w2.
Proof.
  destruct (handleCreate_stored_link req w r Hok) as [Hne [_ Hfound]].
  destruct (handleCreate_ok_inv (Ok req) w r Hok)
    as [req' [code [w1 [Hb [_ [Hcode [_ [_ [_ [_ Hr]]]]]]]]]].
  inversion Hb. subst req'.
  destruct (handleCreate_code_valid req w code) as [Hvalid Hlen];
    [rewrite Hcode; reflexivity|].
  assert (Hc : resp_Code r = code) by (subst r; reflexivity).
  rewrite Hc in *. rewrite <- Hdb in Hfound. rewrite <- Hsame in *.
  pose proof (handleCreate_code_custom req2 w2 Hne Hlen Hvalid) as Hcode2.
  rewrite Hfound in Hcode2.
  rewrite (handleCreate_early req2 w2 custom_conflict Hurl2)
    by (rewrite Hcode2; reflexivity).
  rewrite Hcode2. split; reflexivity.
Qed.

Lemma X17_created_code_is_taken_witness :
  fst (@handleCreate sample_net_url (Ok (sample_req "000000" 0))
         (snd (@handleCreate sample_net_url (Ok (sample_req "" 0))
                 (sample_world [] "" 20 rounds_src))))
  = JSON StatusConflict (H_error "自定义短码已存在").
Proof.
  destruct (@X17_created_code_is_taken sample_net_url
              (sample_req "" 0) (sample_req "000000" 0)
              (sample_world [] "" 20 rounds_src)
              (snd (@handleCreate sample_net_url (Ok (sample_req "" 0))
                      (sample_world [] "" 20 rounds_src)))
              {| resp_Code := "000000";
                 resp_ShortURL := "http://localhost:8080/000000";
                 resp_URL := "https://example.com" |}) as [A _].
  - vm_compute. reflexivity.
  - split; [vm_compute; discriminate | vm_compute; reflexivity].
  - reflexivity.
  - reflexivity.
  - exact A.
Defined.
